(** * Greenmask: the RandomInt transformer and the restore base

    A shallow embedding of
    [internal/db/postgres/transformers/random_int.go] and of the parts of
    the restore base that its test suite exercises.

    Go's [(T, error)] results are values of [outcome]; a method with a
    pointer receiver is a computation in a state-and-error monad whose state
    holds the receiver, the records it can reach and a log of the parameter
    scans performed. *)

From stdpp Require Import gmap strings list fin_maps pretty.
From Stdlib Require Import DecimalString.

Open Scope Z_scope.

(** ** Errors and results *)

(** Go's [error] values, as built by [errors.New] and by [fmt.Errorf] with a
    trailing [%w] verb: [wrapError prefix err] is
    [fmt.Errorf(prefix + "%w", err)]. *)
Inductive error : Type :=
| errorString (msg : string)
| wrapError (prefix : string) (err : error).

(** [err.Error()]. *)
Fixpoint Error (e : error) : string :=
  match e with
  | errorString msg => msg
  | wrapError prefix err => prefix +:+ Error err
  end.

(** The result of a Go call: a value, a non-nil [error], or a run-time panic
    (a method called on a nil interface or a nil pointer). *)
Inductive outcome (A : Type) : Type :=
| Ok (a : A)
| Err (e : error)
| Panic.
Arguments Ok {A} a.
Arguments Err {A} e.
Arguments Panic {A}.

(** What the caller of a Go function returning a pointer and an [error]
    receives. *)
Definition go_return {A : Type} (o : outcome A) : option (option A * option error) :=
  match o with
  | Ok a => Some (Some a, None)
  | Err e => Some (None, Some e)
  | Panic => None
  end.

Definition is_Err {A : Type} (o : outcome A) : bool :=
  match o with Err _ => true | _ => false end.

(** ** The state-and-error monad *)

Definition M (S A : Type) : Type := S -> outcome A * S.

Definition ret {S A : Type} (a : A) : M S A := fun s => (Ok a, s).

Definition bind {S A B : Type} (m : M S A) (k : A -> M S B) : M S B :=
  fun s =>
    match m s with
    | (Ok a, s') => k a s'
    | (Err e, s') => (Err e, s')
    | (Panic, s') => (Panic, s')
    end.

Definition fail {S A : Type} (e : error) : M S A := fun s => (Err e, s).
Definition panic {S A : Type} : M S A := fun s => (Panic, s).
Definition gets {S A : Type} (f : S -> A) : M S A := fun s => (Ok (f s), s).

(** [if err != nil { return nil, fmt.Errorf(prefix + "%w", err) }]. *)
Definition wrapErr {S A : Type} (prefix : string) (m : M S A) : M S A :=
  fun s =>
    match m s with
    | (Err e, s') => (Err (wrapError prefix e), s')
    | r => r
    end.

Declare Scope go_scope.
Delimit Scope go_scope with go.
Notation "x <- m ; k" := (bind m (fun x => k))
  (at level 100, m at next level, right associativity) : go_scope.
Notation "m ;; k" := (bind m (fun _ => k))
  (at level 100, right associativity) : go_scope.

(** A double quote, for the messages that quote a parameter name. *)
Definition dquote : string := String (Ascii.ascii_of_nat 34) EmptyString.

(** [fmt.Sprintf("%d", v)] for an [int64]. *)
Definition fmt_d (v : Z) : string := pretty v.

(** ** The toolkit: records, the driver, parameters, random numbers *)

Module toolkit.

(** A pointer to a heap object. *)
Definition loc : Type := positive.

(** One column slot: a raw value and its null flag. *)
Record RawValue : Type := NewRawValue { Data : string; IsNull : bool }.

(** Modelled from the spec: [toolkit.Record], whose declaration is not among
    the sources. "One decoded row: ordered column slots, each holding a raw
    value plus a null flag, addressable by column index. Mutable in place by
    transformers." *)
Record Record_ : Type := mkRecord { Row : list RawValue }.

(** The records allocated on the heap. *)
Abbreviation Records := (gmap loc Record_).

(** The text encoding of an integer column value. *)
Definition EncodeInt64 (v : Z) : string := pretty v.

Definition in_range (idx : Z) (r : Record_) : bool :=
  (0 <=? idx) && (idx <? Z.of_nat (length (Row r))).

(** Modelled from the spec: [Record.GetRawColumnValueByIdx], a read of the
    slot at a column index; an index outside the row is an error. *)
Definition GetRawColumnValueByIdx (r : Record_) (idx : Z) : error + RawValue :=
  if in_range idx r then
    match Row r !! Z.to_nat idx with
    | Some v => inr v
    | None => inl (errorString ("column index is out of range: " +:+ fmt_d idx))
    end
  else inl (errorString ("column index is out of range: " +:+ fmt_d idx)).

(** Modelled from the spec: [Record.SetColumnValueByIdx] with an [int64]
    value, which "overwrites the column's raw value in place": the slot
    receives the encoded value and is no longer null; an index outside the
    row is an error and changes nothing. *)
Definition SetColumnValueByIdx (r : Record_) (idx : Z) (v : Z) : error + Record_ :=
  if in_range idx r then
    inr (mkRecord (<[Z.to_nat idx := NewRawValue (EncodeInt64 v) false]> (Row r)))
  else inl (errorString ("column index is out of range: " +:+ fmt_d idx)).

(** A column of the destination relation. *)
Record Column : Type := mkColumn { Name : string; TypeName : string }.

(** Modelled from the spec: the schema/driver collaborator, which knows the
    shape of the destination relation. *)
Record Driver : Type := mkDriver { Columns : list Column }.

Fixpoint find_column (cols : list Column) (name : string) (idx : Z)
  : option (Z * Column) :=
  match cols with
  | [] => None
  | c :: cols' =>
      if String.eqb (Name c) name then Some (idx, c)
      else find_column cols' name (idx + 1)
  end.

(** Modelled from the spec: [GetColumnByName(name) -> (index,
    type-descriptor, found)]. When the column is not found the index is the
    zero value and the descriptor is nil. *)
Definition GetColumnByName (d : Driver) (name : string) : Z * option Column * bool :=
  match find_column (Columns d) name 0 with
  | Some (idx, c) => (idx, Some c, true)
  | None => (0, None, false)
  end.

(** [toolkit.ColumnProperties] and its setters. *)
Record ColumnProperties : Type := mkColumnProperties {
  Affected : bool;
  AllowedTypes : list string
}.

Definition NewColumnProperties : ColumnProperties := mkColumnProperties false [].
Definition SetAffected (v : bool) (cp : ColumnProperties) : ColumnProperties :=
  mkColumnProperties v (AllowedTypes cp).
Definition SetAllowedColumnTypes (ts : list string) (cp : ColumnProperties)
  : ColumnProperties :=
  mkColumnProperties (Affected cp) ts.

(** [toolkit.ParameterDefinition] with the attributes the transformer
    definition sets. *)
Record ParameterDefinition : Type := mkParameterDefinition {
  PName : string;
  Description : string;
  Required : bool;
  DefaultValue : option string;
  IsColumn : bool;
  ColumnProps : option ColumnProperties;
  LinkParameter : string;
  DynamicModeSupport : bool
}.

Definition MustNewParameterDefinition (name description : string)
  : ParameterDefinition :=
  mkParameterDefinition name description false None false None "" false.

Definition SetIsColumn (cp : ColumnProperties) (d : ParameterDefinition) :=
  mkParameterDefinition (PName d) (Description d) (Required d) (DefaultValue d)
    true (Some cp) (LinkParameter d) (DynamicModeSupport d).
Definition SetRequired (v : bool) (d : ParameterDefinition) :=
  mkParameterDefinition (PName d) (Description d) v (DefaultValue d)
    (IsColumn d) (ColumnProps d) (LinkParameter d) (DynamicModeSupport d).
Definition SetLinkParameter (name : string) (d : ParameterDefinition) :=
  mkParameterDefinition (PName d) (Description d) (Required d) (DefaultValue d)
    (IsColumn d) (ColumnProps d) name (DynamicModeSupport d).
Definition SetDynamicModeSupport (v : bool) (d : ParameterDefinition) :=
  mkParameterDefinition (PName d) (Description d) (Required d) (DefaultValue d)
    (IsColumn d) (ColumnProps d) (LinkParameter d) v.
Definition SetDefaultValue (v : string) (d : ParameterDefinition) :=
  mkParameterDefinition (PName d) (Description d) (Required d) (Some v)
    (IsColumn d) (ColumnProps d) (LinkParameter d) (DynamicModeSupport d).

(** [toolkit.ParamsValue]: the raw text of a parameter. *)
Definition ParamsValue (s : string) : string := s.

(** The [toolkit.Parameterizer] interface. [Scan(dest)] is one method in Go,
    dispatching on the type of [dest]; the transformer scans into a
    [string], an [int64] and a [bool], one entry each here. A scan reads the
    records (a dynamic parameter takes its value from the row being
    processed) and writes nothing. *)
Record Parameterizer : Type := mkParameterizer {
  GetDefinition : ParameterDefinition;
  IsDynamic : bool;
  ScanString : Records -> error + string;
  ScanInt64 : Records -> error + Z;
  ScanBool : Records -> error + bool
}.

(** The range of Go's [int64]. *)
Definition int64_min : Z := - 2 ^ 63.
Definition int64_max : Z := 2 ^ 63 - 1.
Definition is_int64 (v : Z) : bool := (int64_min <=? v) && (v <=? int64_max).

(** Modelled from the spec: the conversion of a raw parameter text to an
    [int64] ("explicit conversion functions per target type, returning a
    typed failure"). *)
Definition ParseInt64 (s : string) : error + Z :=
  match NilZero.int_of_string s with
  | Some d =>
      let v := Z.of_int d in
      if is_int64 v then inr v
      else inl (errorString ("value out of range: " +:+ s))
  | None => inl (errorString ("invalid syntax: " +:+ s))
  end.

(** Modelled from the spec: the conversion of a raw parameter text to a
    [bool]. *)
Definition ParseBool (s : string) : error + bool :=
  if String.eqb s "true" then inr true
  else if String.eqb s "false" then inr false
  else inl (errorString ("invalid syntax: " +:+ s)).

Definition with_raw {A : Type} (raw : option string) (conv : string -> error + A)
  : error + A :=
  match raw with
  | Some v => conv v
  | None => inl (errorString "parameter value is not set")
  end.

(** Modelled from the spec: a static parameter, which carries the raw text
    supplied for it (or its default) and converts it on [Scan]. *)
Definition StaticParameter (def : ParameterDefinition) (rawValue : option string)
  : Parameterizer :=
  {| GetDefinition := def;
     IsDynamic := false;
     ScanString := fun _ => with_raw rawValue inr;
     ScanInt64 := fun _ => with_raw rawValue ParseInt64;
     ScanBool := fun _ => with_raw rawValue ParseBool |}.

(** The raw text of column [idx] of the record at [rec]. *)
Definition column_text (recs : Records) (rec : loc) (idx : Z) : error + string :=
  match recs !! rec with
  | None => inl (errorString "record is not set")
  | Some r =>
      match GetRawColumnValueByIdx r idx with
      | inl e => inl e
      | inr v =>
          if IsNull v then inl (errorString "dynamic value is null")
          else inr (Data v)
      end
  end.

Definition and_then {A B : Type} (x : error + A) (f : A -> error + B) : error + B :=
  match x with
  | inl e => inl e
  | inr a => f a
  end.

(** Modelled from the spec: a dynamic parameter, "recomputed per row": its
    value is read, on every [Scan], from a column of the row buffer it is
    attached to. *)
Definition DynamicParameter (def : ParameterDefinition) (rec : loc) (idx : Z)
  : Parameterizer :=
  {| GetDefinition := def;
     IsDynamic := true;
     ScanString := fun recs => column_text recs rec idx;
     ScanInt64 := fun recs => and_then (column_text recs rec idx) ParseInt64;
     ScanBool := fun recs => and_then (column_text recs rec idx) ParseBool |}.

(** What a configuration supplies for one parameter: a literal value, or
    the name of the column to take the value from on every row. *)
Inductive ParamSetting : Type :=
| StaticValue (value : string)
| DynamicValue (rec : loc) (column : string).

(** Modelled from the spec: the binding of one parameter definition to what
    the configuration supplies. A parameter that is not supplied takes its
    default value; a required one without a default is an error; dynamic
    mode is refused where the definition does not support it. *)
Definition InitParameter (driver : Driver) (def : ParameterDefinition)
    (supplied : option ParamSetting) : error + Parameterizer :=
  match supplied with
  | Some (StaticValue v) => inr (StaticParameter def (Some v))
  | Some (DynamicValue rec column) =>
      if DynamicModeSupport def then
        match GetColumnByName driver column with
        | (idx, _, true) => inr (DynamicParameter def rec idx)
        | (_, _, false) =>
            inl (errorString ("column with name " +:+ column +:+ " is not found"))
        end
      else inl (errorString ("parameter " +:+ PName def
                             +:+ " does not support dynamic mode"))
  | None =>
      match DefaultValue def with
      | Some v => inr (StaticParameter def (Some v))
      | None =>
          if Required def
          then inl (errorString ("parameter " +:+ PName def +:+ " is required"))
          else inr (StaticParameter def None)
      end
  end.

(** Modelled from the spec: the binding of all the parameters of a
    transformer definition, keyed by name. *)
Fixpoint InitParameters (driver : Driver) (defs : list ParameterDefinition)
    (supplied : gmap string ParamSetting) : error + gmap string Parameterizer :=
  match defs with
  | [] => inr ∅
  | def :: defs' =>
      match InitParameter driver def (supplied !! PName def) with
      | inl e => inl e
      | inr p =>
          match InitParameters driver defs' supplied with
          | inl e => inl e
          | inr m => inr (<[PName def := p]> m)
          end
      end
  end.

(** Go's [*rand.Rand]: a source of pseudo-random numbers and how many of them
    have been drawn. The generator algorithm belongs to the Go library; the
    source is its output sequence. *)
Record Rand : Type := mkRand { src : nat -> Z; drawn : nat }.

(** [r.Int63()]: the next non-negative 63-bit number. *)
Definition Int63 (g : Rand) : Z * Rand :=
  (src g (drawn g) mod 2 ^ 63, mkRand (src g) (S (drawn g))).

(** Modelled from the spec: [toolkit.RandomInt], which "draws a value
    uniformly from the closed range [min, max]". *)
Definition RandomInt (g : Rand) (min max : Z) : Z * Rand :=
  let (x, g') := Int63 g in
  (min + x mod (max - min + 1), g').

End toolkit.
Import toolkit.

(** ** The transformer *)

(** What the Go runtime supplies to the constructor: the clock reading of
    [time.Now().UnixMicro()] and the sequence [rand.NewSource] derives from a
    seed. *)
Record GoRuntime : Type := mkGoRuntime {
  UnixMicro : Z;
  NewSource : Z -> nat -> Z
}.

Module utils.

Record TransformerProperties : Type := NewTransformerProperties {
  TName : string;
  TDescription : string
}.

(** [utils.TransformerDefinition]: properties, constructor, parameters. *)
Record TransformerDefinition (New : Type) : Type := NewTransformerDefinition {
  Properties : TransformerProperties;
  NewTransformer : New;
  Parameters : list ParameterDefinition
}.
Arguments NewTransformerDefinition {New}.
Arguments Properties {New}.
Arguments NewTransformer {New}.
Arguments Parameters {New}.

End utils.

Record RandomIntTransformer : Type := mkRandomIntTransformer {
  columnName : string;
  keepNull : bool;
  rand : Rand;
  affectedColumns : gmap Z string;
  columnIdx : Z;
  columnParam : option Parameterizer;
  maxParam : option Parameterizer;
  minParam : option Parameterizer;
  keepNullParam : option Parameterizer
}.

(** What a call can reach besides the receiver: the records on the heap, and
    the names of the parameters scanned so far, oldest first. *)
Record World : Type := mkWorld {
  records : Records;
  scanned : list string
}.

(** The state of a method call: the receiver and the world. *)
Record State : Type := mkState {
  self : RandomIntTransformer;
  world : World
}.

(** [p.Scan(&dest)], with [sel] the entry for the type of [dest]. A nil
    interface panics; otherwise the scan is logged under the parameter's
    name and its result returned. *)
Definition Scan {A : Type} (sel : Parameterizer -> Records -> error + A)
    (p : option Parameterizer) : M World A :=
  fun w =>
    match p with
    | None => (Panic, w)
    | Some p =>
        let w' := mkWorld (records w) (scanned w ++ [PName (GetDefinition p)]) in
        match sel p (records w) with
        | inr a => (Ok a, w')
        | inl e => (Err e, w')
        end
    end.

(** A computation on the world, run inside a method call. *)
Definition liftW {A : Type} (m : M World A) : M State A :=
  fun s =>
    let (o, w') := m (world s) in
    (o, mkState (self s) w').

(** [r.GetRawColumnValueByIdx(idx)] on the record [r] points to. *)
Definition getRawColumnValueByIdx (r : loc) (idx : Z) : M State RawValue :=
  fun s =>
    match records (world s) !! r with
    | None => (Panic, s)
    | Some rec =>
        match GetRawColumnValueByIdx rec idx with
        | inr v => (Ok v, s)
        | inl e => (Err e, s)
        end
    end.

(** [r.SetColumnValueByIdx(idx, v)]: the record [r] points to is updated in
    place. *)
Definition setColumnValueByIdx (r : loc) (idx : Z) (v : Z) : M State unit :=
  fun s =>
    match records (world s) !! r with
    | None => (Panic, s)
    | Some rec =>
        match SetColumnValueByIdx rec idx v with
        | inr rec' =>
            (Ok tt,
             mkState (self s)
               (mkWorld (<[r := rec']> (records (world s))) (scanned (world s))))
        | inl e => (Err e, s)
        end
    end.

(** [toolkit.RandomInt(rit.rand, min, max)]: the draw advances the
    receiver's generator. *)
Definition randomInt (min max : Z) : M State Z :=
  fun s =>
    let rit := self s in
    let (v, g') := RandomInt (rand rit) min max in
    (Ok v,
     mkState
       (mkRandomIntTransformer (columnName rit) (keepNull rit) g'
          (affectedColumns rit) (columnIdx rit) (columnParam rit)
          (maxParam rit) (minParam rit) (keepNullParam rit))
       (world s)).

Definition quoted (name : string) : string := dquote +:+ name +:+ dquote.

(** [NewRandomIntTransformer]. The validation warnings it returns are nil on
    every path, so the result is the transformer or the error. Neither
    ["min"] nor ["max"] is scanned here: the check of the bounds is
    commented out in the source. *)
Definition NewRandomIntTransformer (rt : GoRuntime) (driver : Driver)
    (parameters : gmap string Parameterizer) : M World RandomIntTransformer :=
  (let columnParam := parameters !! "column" in
   let minParam := parameters !! "min" in
   let maxParam := parameters !! "max" in
   let keepNullParam := parameters !! "keep_null" in
   columnName <- wrapErr ("unable to scan " +:+ quoted "column" +:+ " param: ")
                   (Scan ScanString columnParam);
   let '(idx, _, ok) := GetColumnByName driver columnName in
   if negb ok then
     fail (errorString ("column with name " +:+ columnName +:+ " is not found"))
   else
     let affectedColumns := <[idx := columnName]> (∅ : gmap Z string) in
     keepNull <- wrapErr ("unable to scan " +:+ quoted "keep_null" +:+ " param: ")
                   (Scan ScanBool keepNullParam);
     ret (mkRandomIntTransformer columnName keepNull
            (mkRand (NewSource rt (UnixMicro rt)) 0)
            affectedColumns idx
            columnParam maxParam minParam keepNullParam))%go.

(** [RandomIntTransformerDefinition]. *)
Definition RandomIntTransformerDefinition :=
  utils.NewTransformerDefinition
    (utils.NewTransformerProperties
       "RandomInt"
       "Generate random int value from min to max")
    NewRandomIntTransformer
    [ SetRequired true
        (SetIsColumn
           (SetAllowedColumnTypes ["int2"; "int4"; "int8"; "numeric"]
              (SetAffected true NewColumnProperties))
           (MustNewParameterDefinition "column" "column name"));
      SetDynamicModeSupport true
        (SetLinkParameter "column"
           (SetRequired true
              (MustNewParameterDefinition "min" "min int value threshold")));
      SetDynamicModeSupport true
        (SetLinkParameter "column"
           (SetRequired true
              (MustNewParameterDefinition "max" "max int value threshold")));
      SetDefaultValue (ParamsValue "true")
        (MustNewParameterDefinition "keep_null"
           "indicates that NULL values must not be replaced with transformed values")
    ].

Definition GetAffectedColumns (rit : RandomIntTransformer) : gmap Z string :=
  affectedColumns rit.

Definition Init : M State unit := ret tt.

Definition Done : M State unit := ret tt.

(** [Transform]: [Ok r] is the Go result [(r, nil)], [Err e] is
    [(nil, e)]. *)
Definition Transform (r : loc) : M State loc :=
  (rit <- gets self;
   minVal <- wrapErr ("unable to scan " +:+ quoted "min" +:+ " param: ")
               (liftW (Scan ScanInt64 (minParam rit)));
   maxVal <- wrapErr ("unable to scan " +:+ quoted "max" +:+ " param: ")
               (liftW (Scan ScanInt64 (maxParam rit)));
   if minVal >=? maxVal then
     fail (errorString ("max value must be greater than min: got min = "
                        +:+ fmt_d minVal +:+ " max = " +:+ fmt_d maxVal))
   else
     val <- wrapErr "unable to scan value: "
              (getRawColumnValueByIdx r (columnIdx rit));
     if IsNull val && keepNull rit then ret r
     else
       v <- randomInt minVal maxVal;
       wrapErr "unable to set new value: "
         (setColumnValueByIdx r (columnIdx rit) v);;
       ret r)%go.

(** The sequence of calls a pipeline makes on one instance. *)
Inductive call : Type :=
| CallInit
| CallTransform (r : loc)
| CallDone.

(** The state a call leaves behind, whatever it returned. *)
Definition after (c : call) (s : State) : State :=
  match c with
  | CallInit => snd (Init s)
  | CallTransform r => snd (Transform r s)
  | CallDone => snd (Done s)
  end.

Definition run_calls (cs : list call) (s : State) : State :=
  fold_left (fun s c => after c s) cs s.

(** How often a parameter name occurs in a scan log. *)
Definition scans_of (name : string) (log : list string) : nat :=
  length (filter (fun n => n = name) log).

(** The scan log after a call of [Transform] that scanned both bounds. *)
Definition log2 (w : World) (pmin pmax : Parameterizer) : list string :=
  (scanned w ++ [PName (GetDefinition pmin)]) ++ [PName (GetDefinition pmax)].

(** ** The restore base

    Modelled from the spec: the restore transaction controller
    ([restoreBase] with [setupTx], [resetTx] and [getObject]). Its source
    file is not among the sources, only its test suite is; the definitions
    below follow section 4.1 of the specification, and the statements are
    the ones the test suite itself sends to the database. *)

Module pgrestore.

(** [pgrestore.DataSectionSettings], with the fields the test suite sets. *)
Record DataSectionSettings : Type := mkDataSectionSettings {
  DisableTriggers : bool;
  UseSessionReplicationRoleReplica : bool;
  SuperUser : string
}.

End pgrestore.

Module toc.

(** [toc.Entry], with the fields the test suite sets; each is a pointer to
    a string in Go. *)
Record Entry : Type := mkEntry {
  Namespace : option string;
  Tag : option string;
  FileName : option string
}.

End toc.

Module restorers.

Import pgrestore toc.

(** The [tgenabled] flag of a trigger: [TgO] (rune O) fires in origin and
    local modes, [TgD] (D) is disabled, [TgR] (R) fires in replica mode,
    [TgA] (A) fires always. *)
Inductive tgenabled : Type := TgO | TgD | TgR | TgA.

Inductive replication_role : Type := origin | replica | local.

(** The part of a database session the controller changes: the login role
    and the role in force, the replication role and the value [RESET] gives
    it, and the triggers of each relation with their flags. *)
Record Session : Type := mkSession {
  session_user : string;
  current_user : string;
  session_replication_role : replication_role;
  default_replication_role : replication_role;
  triggers : gmap (string * string) (list (string * tgenabled))
}.

(** The statements of session setup and teardown. *)
Inductive Stmt : Type :=
| SetRole (role : string)
| ResetRole
| DisableTriggerAll (schema table : string)
| EnableTriggerAll (schema table : string)
| SetSessionReplicationRoleReplica
| ResetSessionReplicationRole.

(** The text of a statement. *)
Definition sql (st : Stmt) : string :=
  match st with
  | SetRole role => "SET ROLE " +:+ role
  | ResetRole => "RESET ROLE"
  | DisableTriggerAll schema table =>
      "ALTER TABLE " +:+ schema +:+ "." +:+ table +:+ " DISABLE TRIGGER ALL"
  | EnableTriggerAll schema table =>
      "ALTER TABLE " +:+ schema +:+ "." +:+ table +:+ " ENABLE TRIGGER ALL"
  | SetSessionReplicationRoleReplica => "SET session_replication_role = 'replica'"
  | ResetSessionReplicationRole => "RESET session_replication_role"
  end.

(** The statement that undoes a statement. *)
Definition inverse (st : Stmt) : Stmt :=
  match st with
  | SetRole _ => ResetRole
  | ResetRole => ResetRole
  | DisableTriggerAll schema table => EnableTriggerAll schema table
  | EnableTriggerAll schema table => DisableTriggerAll schema table
  | SetSessionReplicationRoleReplica => ResetSessionReplicationRole
  | ResetSessionReplicationRole => SetSessionReplicationRoleReplica
  end.

Definition set_flags (f : tgenabled) (trs : list (string * tgenabled))
  : list (string * tgenabled) :=
  map (fun t => (fst t, f)) trs.

(** Modelled from the spec: the effect of a statement the database accepts
    on the session state the specification names (role, trigger flags,
    replication role); [None] when the relation it names does not exist. *)
Definition apply (st : Stmt) (s : Session) : option Session :=
  match st with
  | SetRole role =>
      Some (mkSession (session_user s) role (session_replication_role s)
              (default_replication_role s) (triggers s))
  | ResetRole =>
      Some (mkSession (session_user s) (session_user s)
              (session_replication_role s) (default_replication_role s)
              (triggers s))
  | DisableTriggerAll schema table =>
      match triggers s !! (schema, table) with
      | Some trs =>
          Some (mkSession (session_user s) (current_user s)
                  (session_replication_role s) (default_replication_role s)
                  (<[(schema, table) := set_flags TgD trs]> (triggers s)))
      | None => None
      end
  | EnableTriggerAll schema table =>
      match triggers s !! (schema, table) with
      | Some trs =>
          Some (mkSession (session_user s) (current_user s)
                  (session_replication_role s) (default_replication_role s)
                  (<[(schema, table) := set_flags TgO trs]> (triggers s)))
      | None => None
      end
  | SetSessionReplicationRoleReplica =>
      Some (mkSession (session_user s) (current_user s) replica
              (default_replication_role s) (triggers s))
  | ResetSessionReplicationRole =>
      Some (mkSession (session_user s) (current_user s)
              (default_replication_role s) (default_replication_role s)
              (triggers s))
  end.

(** A transaction: the session it runs in, and the database's decision on
    whether the session may run a statement. *)
Record Tx : Type := mkTx {
  session : Session;
  permits : Session -> Stmt -> bool
}.

(** Modelled from the spec: [tx.Exec(ctx, sql)], one statement against the
    transaction, which the database may refuse. *)
Definition Exec (st : Stmt) : M Tx unit :=
  fun tx =>
    if permits tx (session tx) st then
      match apply st (session tx) with
      | Some s' => (Ok tt, mkTx s' (permits tx))
      | None => (Err (errorString ("relation does not exist: " +:+ sql st)), tx)
      end
    else (Err (errorString ("permission denied: " +:+ sql st)), tx).

(** The object store: the stored bytes of each object. *)
Record Storage : Type := mkStorage { objects : gmap string (list Byte.byte) }.

(** Modelled from the spec: [st.GetObject(ctx, name)], the object-store
    collaborator. *)
Definition GetObject (st : Storage) (name : string) : error + list Byte.byte :=
  match objects st !! name with
  | Some bs => inr bs
  | None => inl (errorString ("object not found: " +:+ name))
  end.

(** The compression boundary. The codec is a library of its own ([gzip] in
    the test suite); what the controller relies on is that it reads back
    what it wrote. *)
Record Codec : Type := mkCodec {
  compress : list Byte.byte -> list Byte.byte;
  decompress : list Byte.byte -> option (list Byte.byte);
  decompress_compress : forall payload, decompress (compress payload) = Some payload
}.

(** A readable, closable stream: the bytes not yet read. *)
Record ReadCloser : Type := mkReadCloser {
  pending : list Byte.byte;
  closed : bool
}.

(** [obj.Read(buf)] with [len(buf) = n]: up to [n] bytes. *)
Definition Read (n : nat) : M ReadCloser (list Byte.byte) :=
  fun rc =>
    if closed rc then (Err (errorString "read on closed stream"), rc)
    else
      match pending rc with
      | [] => (Err (errorString "EOF"), rc)
      | _ => (Ok (take n (pending rc)), mkReadCloser (drop n (pending rc)) false)
      end.

Definition Close : M ReadCloser unit :=
  fun rc => (Ok tt, mkReadCloser (pending rc) true).

Record restoreBase : Type := mkRestoreBase {
  entry : option Entry;
  st : option Storage;
  opt : option DataSectionSettings
}.

Definition newRestoreBase (entry : option Entry) (st : option Storage)
    (opt : option DataSectionSettings) : restoreBase :=
  mkRestoreBase entry st opt.

(** The relation of the entry: its namespace and tag. *)
Definition relation (rb : restoreBase) : option (string * string) :=
  match entry rb with
  | Some e =>
      match Namespace e, Tag e with
      | Some nsp, Some tag => Some (nsp, tag)
      | _, _ => None
      end
  | None => None
  end.

(** Modelled from the spec: the statements of [SetupSession], in order: "(a) if impersonation is
    configured, switch the active role to the configured privileged role;
    (b) if trigger suppression is configured, disable all triggers on the
    entry's target relation; (c) if replica-mode is configured, set the
    session's constraint-enforcement mode to replica". [None] when the
    settings or a needed entry field is a nil pointer. *)
Definition setup_statements (rb : restoreBase) : option (list Stmt) :=
  match opt rb with
  | None => None
  | Some o =>
      let a := if String.eqb (SuperUser o) "" then [] else [SetRole (SuperUser o)] in
      let c := if UseSessionReplicationRoleReplica o
               then [SetSessionReplicationRoleReplica] else [] in
      if DisableTriggers o then
        match relation rb with
        | Some (nsp, tag) => Some (a ++ [DisableTriggerAll nsp tag] ++ c)
        | None => None
        end
      else Some (a ++ c)
  end.

(** Modelled from the spec: the statements of [TeardownSession]: "restore original
    constraint-enforcement mode, re-enable triggers, switch role back to the
    original (unprivileged) session role", each for the step that setup
    performed. *)
Definition reset_statements (rb : restoreBase) : option (list Stmt) :=
  match opt rb with
  | None => None
  | Some o =>
      let a := if String.eqb (SuperUser o) "" then [] else [ResetRole] in
      let c := if UseSessionReplicationRoleReplica o
               then [ResetSessionReplicationRole] else [] in
      if DisableTriggers o then
        match relation rb with
        | Some (nsp, tag) => Some (c ++ [EnableTriggerAll nsp tag] ++ a)
        | None => None
        end
      else Some (c ++ a)
  end.

(** Modelled from the spec: "Each step is a single statement executed
    against the given transaction; failure at any step aborts". *)
Fixpoint exec_all (sts : list Stmt) : M Tx unit :=
  match sts with
  | [] => ret tt
  | st :: sts' => (Exec st;; exec_all sts')%go
  end.

(** The session a list of accepted statements leads to. *)
Fixpoint apply_all (sts : list Stmt) (s : Session) : option Session :=
  match sts with
  | [] => Some s
  | st :: sts' =>
      match apply st s with
      | Some s' => apply_all sts' s'
      | None => None
      end
  end.

(** Modelled from the spec: [setupTx], the [SetupSession] operation. *)
Definition setupTx (rb : restoreBase) : M Tx unit :=
  match setup_statements rb with
  | Some sts => wrapErr "cannot setup transaction: " (exec_all sts)
  | None => panic
  end.

(** Modelled from the spec: [resetTx], the [TeardownSession] operation. *)
Definition resetTx (rb : restoreBase) : M Tx unit :=
  match reset_statements rb with
  | Some sts => wrapErr "cannot reset transaction: " (exec_all sts)
  | None => panic
  end.

(** Modelled from the spec: [getObject], the [FetchPayload] operation, which
    "opens a byte stream for the entry's backing object from
    the object-store collaborator; decompresses it transparently; returns a
    readable, closable stream. Failure (object missing, decompression error)
    is fatal for the entry." *)
Definition getObject (codec : Codec) (rb : restoreBase) : outcome ReadCloser :=
  match st rb, entry rb with
  | Some store, Some e =>
      match FileName e with
      | Some name =>
          match GetObject store name with
          | inl err => Err (wrapError "cannot open dump file: " err)
          | inr bs =>
              match decompress codec bs with
              | Some payload => Ok (mkReadCloser payload false)
              | None =>
                  Err (wrapError "cannot create gzip reader: "
                         (errorString "invalid header"))
              end
          end
      | None => Panic
      end
  | _, _ => Panic
  end.

(** The bytes a stream yields when read to its end. *)
Definition contents (rc : ReadCloser) : list Byte.byte := pending rc.

End restorers.

(** ** Reference scenarios

    The relation [orders] of the test suite, a configuration of the
    transformer on it and one row buffer, used to run the definitions. *)

Module scenario.

Import pgrestore toc restorers.

Definition runtime : GoRuntime :=
  mkGoRuntime 1700000000000000 (fun seed n => seed + 7919 * Z.of_nat n).

Definition orders : Driver :=
  mkDriver [mkColumn "id" "int4"; mkColumn "user_id" "int4";
            mkColumn "order_amount" "numeric"].

(** A configuration with literal bounds; [keep_null] is left out unless
    [kn] supplies it. *)
Definition settings (column mn mx : string) (kn : option string)
  : gmap string ParamSetting :=
  let base : gmap string ParamSetting :=
    <["column" := StaticValue column]>
      (<["min" := StaticValue mn]> (<["max" := StaticValue mx]> ∅)) in
  match kn with
  | Some v => <["keep_null" := StaticValue v]> base
  | None => base
  end.

(** The row buffer: [id = 7], [user_id] null, [order_amount = 100.50]. *)
Definition row : Record_ :=
  mkRecord [NewRawValue "7" false; NewRawValue "" true;
            NewRawValue "100.50" false].

Definition buf : loc := 1%positive.

Definition world0 : World := mkWorld {[ buf := row ]} [].

(** Bind the parameters and construct the transformer. *)
Definition construct (driver : Driver) (cfg : gmap string ParamSetting)
  : outcome RandomIntTransformer * World :=
  match InitParameters driver (utils.Parameters RandomIntTransformerDefinition) cfg with
  | inr ps => NewRandomIntTransformer runtime driver ps world0
  | inl e => (Err e, world0)
  end.

(** The state after construction, when it succeeds. *)
Definition constructed (cfg : gmap string ParamSetting) : option State :=
  match construct orders cfg with
  | (Ok rit, w) => Some (mkState rit w)
  | _ => None
  end.

(** The definition of a parameter of the transformer, by name. *)
Definition definition (name : string) : ParameterDefinition :=
  default (MustNewParameterDefinition name "")
    (List.find (fun d => String.eqb (PName d) name)
       (utils.Parameters RandomIntTransformerDefinition)).

Definition static (name value : string) : Parameterizer :=
  StaticParameter (definition name) (Some value).

(** The instance the constructor builds for the column [column] at index
    [idx] with literal bounds. *)
Definition instance (column : string) (idx : Z) (mn mx : string) (kn : string)
  : RandomIntTransformer :=
  mkRandomIntTransformer column (String.eqb kn "true")
    (mkRand (NewSource runtime (UnixMicro runtime)) 0)
    {[ idx := column ]} idx
    (Some (static "column" column)) (Some (static "max" mx))
    (Some (static "min" mn)) (Some (static "keep_null" kn)).

(** The parameters bound to literal values. *)
Definition parameters (column mn mx kn : string) : gmap string Parameterizer :=
  <["column" := static "column" column]>
    (<["min" := static "min" mn]>
       (<["max" := static "max" mx]>
          (<["keep_null" := static "keep_null" kn]> ∅))).

(** The session of the test suite: [non_super_user] logged in, the trigger
    of [public.orders] in the state [flag]. *)
Definition test_session (flag : tgenabled) : Session :=
  mkSession "non_super_user" "non_super_user" origin origin
    {[ ("public", "orders") := [("trg_set_order_date", flag)] ]}.

Definition test_tx (flag : tgenabled) : Tx :=
  mkTx (test_session flag) (fun _ _ => true).

Definition orders_entry : Entry :=
  mkEntry (Some "public") (Some "orders") (Some "test.tar.gz").

Definition full_settings : DataSectionSettings :=
  mkDataSectionSettings true true "testuser".

(** A codec that stores the payload behind the two magic bytes of the gzip
    format. *)
Definition stored_compress (payload : list Byte.byte) : list Byte.byte :=
  Byte.x1f :: Byte.x8b :: payload.

Definition stored_decompress (bs : list Byte.byte) : option (list Byte.byte) :=
  match bs with
  | Byte.x1f :: Byte.x8b :: payload => Some payload
  | _ => None
  end.

Definition stored : Codec :=
  mkCodec stored_compress stored_decompress (fun payload => eq_refl).

Definition test_data : list Byte.byte :=
  String.list_byte_of_string "20383   24ca7574-0adb-4b17-8777-93f5589dbea2    2017-12-13 13:46:49.39".

End scenario.

(** ** Observations on records and call sequences *)

(** The slot [j] of the record at [r], when both exist. *)
Definition slot (recs : Records) (r : loc) (j : nat) : option RawValue :=
  match recs !! r with
  | Some rec => Row rec !! j
  | None => None
  end.

(** The number of slots of the record at [r]. *)
Definition row_length (recs : Records) (r : loc) : option nat :=
  match recs !! r with
  | Some rec => Some (length (Row rec))
  | None => None
  end.

(** How many calls of a sequence are calls of [Transform]. *)
Fixpoint transforms (cs : list call) : nat :=
  match cs with
  | [] => 0%nat
  | CallTransform _ :: cs' => S (transforms cs')
  | _ :: cs' => transforms cs'
  end.

(** The name a parameter is scanned under, when the parameter is there. *)
Definition scan_name (p : option Parameterizer) : list string :=
  match p with
  | Some p => [PName (GetDefinition p)]
  | None => []
  end.

(** ** Properties of [Transform] *)

Ltac go_unfold :=
  unfold Transform, NewRandomIntTransformer, bind, wrapErr, liftW, Scan, gets,
    ret, fail, getRawColumnValueByIdx, setColumnValueByIdx, randomInt;
  simpl.

Section Transform.

Variables (rit : RandomIntTransformer) (w : World) (r : loc).
Variables (pmin pmax : Parameterizer).
Hypothesis Hmin : minParam rit = Some pmin.
Hypothesis Hmax : maxParam rit = Some pmax.

(** [Transform] when the scan of ["min"] fails. *)
Lemma Transform_min_scan_fails e :
  ScanInt64 pmin (records w) = inl e ->
  Transform r (mkState rit w) =
    (Err (wrapError ("unable to scan " +:+ quoted "min" +:+ " param: ") e),
     mkState rit (mkWorld (records w) (scanned w ++ [PName (GetDefinition pmin)]))).
Proof using Hmin.
  intros He. go_unfold. rewrite Hmin; simpl. rewrite He. reflexivity.
Qed.

(** [Transform] when the scan of ["max"] fails. *)
Lemma Transform_max_scan_fails mn e :
  ScanInt64 pmin (records w) = inr mn ->
  ScanInt64 pmax (records w) = inl e ->
  Transform r (mkState rit w) =
    (Err (wrapError ("unable to scan " +:+ quoted "max" +:+ " param: ") e),
     mkState rit (mkWorld (records w) (log2 w pmin pmax))).
Proof using Hmin Hmax.
  intros Hn Hx. go_unfold. rewrite Hmin; simpl. rewrite Hn, Hmax; simpl.
  rewrite Hx. reflexivity.
Qed.

(** [Transform] once both bounds are resolved. *)
Lemma Transform_bounds_resolved mn mx :
  ScanInt64 pmin (records w) = inr mn ->
  ScanInt64 pmax (records w) = inr mx ->
  Transform r (mkState rit w) =
    let s2 := mkState rit (mkWorld (records w) (log2 w pmin pmax)) in
    if mn >=? mx then
      (Err (errorString ("max value must be greater than min: got min = "
                         +:+ fmt_d mn +:+ " max = " +:+ fmt_d mx)), s2)
    else
      match records w !! r with
      | None => (Panic, s2)
      | Some rec =>
          match GetRawColumnValueByIdx rec (columnIdx rit) with
          | inl e => (Err (wrapError "unable to scan value: " e), s2)
          | inr val =>
              if IsNull val && keepNull rit then (Ok r, s2)
              else
                let (v, g') := RandomInt (rand rit) mn mx in
                let rit' :=
                  mkRandomIntTransformer (columnName rit) (keepNull rit) g'
                    (affectedColumns rit) (columnIdx rit) (columnParam rit)
                    (maxParam rit) (minParam rit) (keepNullParam rit) in
                match SetColumnValueByIdx rec (columnIdx rit) v with
                | inr rec' =>
                    (Ok r, mkState rit' (mkWorld (<[r := rec']> (records w)) (log2 w pmin pmax)))
                | inl e =>
                    (Err (wrapError "unable to set new value: " e),
                     mkState rit' (mkWorld (records w) (log2 w pmin pmax)))
                end
          end
      end.
Proof using Hmin Hmax.
  intros Hn Hx. go_unfold. rewrite Hmin; simpl. rewrite Hn, Hmax; simpl.
  rewrite Hx. unfold log2.
  destruct (mn >=? mx); [reflexivity |]. cbn.
  destruct (records w !! r) as [rec |] eqn:Hr; [| reflexivity]. cbn.
  destruct (GetRawColumnValueByIdx rec (columnIdx rit)) as [e | val];
    [reflexivity |]. cbn.
  destruct (IsNull val && keepNull rit); [reflexivity |].
  unfold RandomInt, Int63; cbn. rewrite Hr.
  destruct (SetColumnValueByIdx rec (columnIdx rit) _);
    rewrite ?Hmin, ?Hmax; reflexivity.
Qed.

End Transform.

(** The generated value lies in the closed range of the bounds. *)
Lemma RandomInt_range g mn mx :
  mn < mx -> mn <= fst (RandomInt g mn mx) <= mx.
Proof.
  intros Hlt. unfold RandomInt, Int63; simpl.
  pose proof (Z.mod_pos_bound (src g (drawn g) mod 2 ^ 63) (mx - mn + 1)) as Hb.
  lia.
Qed.

(** The generator a draw leaves behind. *)
Lemma RandomInt_advances g mn mx :
  snd (RandomInt g mn mx) = mkRand (src g) (S (drawn g)).
Proof. reflexivity. Qed.

Lemma GetRawColumnValueByIdx_inr rec idx val :
  GetRawColumnValueByIdx rec idx = inr val ->
  in_range idx rec = true /\ Row rec !! Z.to_nat idx = Some val.
Proof.
  unfold GetRawColumnValueByIdx.
  destruct (in_range idx rec); [| discriminate].
  destruct (Row rec !! Z.to_nat idx); [| discriminate].
  intros [= ->]. split; reflexivity.
Qed.

(** The result of [Transform] on bounds that leave no range. *)
Lemma Transform_empty_range
    (rit : RandomIntTransformer) (w : World) (r : loc)
    (pmin pmax : Parameterizer) (mn mx : Z) :
  minParam rit = Some pmin ->
  maxParam rit = Some pmax ->
  ScanInt64 pmin (records w) = inr mn ->
  ScanInt64 pmax (records w) = inr mx ->
  mn >= mx ->
  exists e,
    fst (Transform r (mkState rit w)) = Err e /\
    go_return (fst (Transform r (mkState rit w))) = Some (None, Some e) /\
    Error e = "max value must be greater than min: got min = "
              +:+ fmt_d mn +:+ " max = " +:+ fmt_d mx.
Proof.
  intros Hmin Hmax Hn Hx Hge.
  rewrite (Transform_bounds_resolved rit w r pmin pmax Hmin Hmax mn mx Hn Hx).
  cbv zeta.
  assert (Hb : (mn >=? mx) = true) by (apply Z.geb_le; lia).
  rewrite Hb. eexists; repeat split.
Qed.

(** C2: for every record, [Transform] returns an error whenever the resolved
    min bound is greater than or equal to the resolved max bound. *)
Theorem Transform_rejects_empty_range
    (rit : RandomIntTransformer) (w : World) (r : loc)
    (pmin pmax : Parameterizer) (mn mx : Z) :
  minParam rit = Some pmin ->
  maxParam rit = Some pmax ->
  ScanInt64 pmin (records w) = inr mn ->
  ScanInt64 pmax (records w) = inr mx ->
  mn >= mx ->
  exists e,
    fst (Transform r (mkState rit w)) = Err e /\
    go_return (fst (Transform r (mkState rit w))) = Some (None, Some e) /\
    Error e = "max value must be greater than min: got min = "
              +:+ fmt_d mn +:+ " max = " +:+ fmt_d mx.
Proof. exact (Transform_empty_range rit w r pmin pmax mn mx). Qed.

Lemma Transform_rejects_empty_range_witness :
  exists e,
    fst (Transform scenario.buf
           (mkState (scenario.instance "id" 0 "5" "5" "true") scenario.world0))
    = Err e.
Proof.
  destruct (Transform_rejects_empty_range
              (scenario.instance "id" 0 "5" "5" "true") scenario.world0
              scenario.buf (scenario.static "min" "5") (scenario.static "max" "5")
              5 5) as [e [He _]];
    [reflexivity | reflexivity | reflexivity | reflexivity | lia |].
  exists e. exact He.
Defined.

(** The effect of a call of [Transform] that generates a value. *)
Lemma Transform_generates_in_place
    (rit : RandomIntTransformer) (w : World) (r : loc)
    (pmin pmax : Parameterizer) (mn mx : Z) (rec : Record_) (val : RawValue) :
  minParam rit = Some pmin ->
  maxParam rit = Some pmax ->
  ScanInt64 pmin (records w) = inr mn ->
  ScanInt64 pmax (records w) = inr mx ->
  mn < mx ->
  records w !! r = Some rec ->
  GetRawColumnValueByIdx rec (columnIdx rit) = inr val ->
  IsNull val = false \/ keepNull rit = false ->
  exists (v : Z) (s' : State) (rec' : Record_),
    Transform r (mkState rit w) = (Ok r, s') /\
    mn <= v <= mx /\
    records (world s') !! r = Some rec' /\
    Row rec' !! Z.to_nat (columnIdx rit) = Some (NewRawValue (EncodeInt64 v) false) /\
    (forall j : nat, j <> Z.to_nat (columnIdx rit) -> Row rec' !! j = Row rec !! j) /\
    length (Row rec') = length (Row rec) /\
    (forall r' : loc, r' <> r -> records (world s') !! r' = records w !! r') /\
    dom (records (world s')) = dom (records w).
Proof.
  intros Hmin Hmax Hn Hx Hlt Hr Hget Hnull.
  rewrite (Transform_bounds_resolved rit w r pmin pmax Hmin Hmax mn mx Hn Hx).
  cbv zeta.
  assert (Hb : (mn >=? mx) = false).
  { destruct (mn >=? mx) eqn:E; [apply Z.geb_le in E; lia | reflexivity]. }
  rewrite Hb, Hr, Hget.
  assert (Hk : IsNull val && keepNull rit = false).
  { destruct Hnull as [-> | ->]; [reflexivity | apply andb_false_r]. }
  rewrite Hk.
  pose proof (RandomInt_range (rand rit) mn mx Hlt) as Hrange.
  destruct (RandomInt (rand rit) mn mx) as [v g'] eqn:Hv. simpl in Hrange.
  apply GetRawColumnValueByIdx_inr in Hget as [Hin Hslot].
  unfold SetColumnValueByIdx. rewrite Hin.
  eexists v, _, _. split; [reflexivity |]. simpl.
  split; [exact Hrange |].
  split; [apply lookup_insert_eq |].
  split.
  { apply list_lookup_insert_eq. apply lookup_lt_Some in Hslot. exact Hslot. }
  split.
  { intros j Hj. apply list_lookup_insert_ne. congruence. }
  split; [apply length_insert |].
  split.
  { intros r' Hr'. apply lookup_insert_ne. congruence. }
  apply set_eq. intros k. rewrite !elem_of_dom.
  destruct (decide (k = r)) as [-> | Hne].
  - rewrite lookup_insert_eq, Hr. split; intros _; eexists; reflexivity.
  - rewrite lookup_insert_ne by congruence. reflexivity.
Qed.

(** C4: when the resolved bounds satisfy min < max and the bound column is
    not null, or keep-null is disabled, [Transform] returns the pointer it
    was given; the record it points to has the bound column overwritten
    with the encoding of an integer [v], [min <= v <= max], and every other
    slot as before; no record is allocated and no other record changes. *)
Theorem Transform_overwrites_bound_column
    (rit : RandomIntTransformer) (w : World) (r : loc)
    (pmin pmax : Parameterizer) (mn mx : Z) (rec : Record_) (val : RawValue) :
  minParam rit = Some pmin ->
  maxParam rit = Some pmax ->
  ScanInt64 pmin (records w) = inr mn ->
  ScanInt64 pmax (records w) = inr mx ->
  mn < mx ->
  records w !! r = Some rec ->
  GetRawColumnValueByIdx rec (columnIdx rit) = inr val ->
  IsNull val = false \/ keepNull rit = false ->
  exists (v : Z) (s' : State) (rec' : Record_),
    Transform r (mkState rit w) = (Ok r, s') /\
    mn <= v <= mx /\
    records (world s') !! r = Some rec' /\
    Row rec' !! Z.to_nat (columnIdx rit) = Some (NewRawValue (EncodeInt64 v) false) /\
    (forall j : nat, j <> Z.to_nat (columnIdx rit) -> Row rec' !! j = Row rec !! j) /\
    length (Row rec') = length (Row rec) /\
    (forall r' : loc, r' <> r -> records (world s') !! r' = records w !! r') /\
    dom (records (world s')) = dom (records w).
Proof. exact (Transform_generates_in_place rit w r pmin pmax mn mx rec val). Qed.

Lemma Transform_overwrites_bound_column_witness :
  exists (v : Z) (s' : State),
    Transform scenario.buf
      (mkState (scenario.instance "id" 0 "1" "10" "true") scenario.world0)
    = (Ok scenario.buf, s') /\ 1 <= v <= 10.
Proof.
  destruct (Transform_overwrites_bound_column
              (scenario.instance "id" 0 "1" "10" "true") scenario.world0
              scenario.buf (scenario.static "min" "1") (scenario.static "max" "10")
              1 10 scenario.row (NewRawValue "7" false))
    as [v [s' [rec' [Ht [Hv _]]]]];
    [reflexivity | reflexivity | reflexivity | reflexivity | lia
    | reflexivity | reflexivity | left; reflexivity |].
  exists v, s'. split; [exact Ht | exact Hv].
Defined.

(** A call of [Transform] that returns an error got past neither a nil
    parameter nor a nil record. *)
Lemma Transform_Err_inv rit w r e s' :
  Transform r (mkState rit w) = (Err e, s') ->
  exists pmin, minParam rit = Some pmin /\
    ((exists e0, ScanInt64 pmin (records w) = inl e0) \/
     exists mn pmax, ScanInt64 pmin (records w) = inr mn /\
       maxParam rit = Some pmax /\
       ((exists e0, ScanInt64 pmax (records w) = inl e0) \/
        exists mx, ScanInt64 pmax (records w) = inr mx)).
Proof.
  intros Ht.
  destruct (minParam rit) as [pmin |] eqn:Hmin.
  2: { revert Ht. go_unfold. rewrite Hmin. discriminate. }
  exists pmin. split; [reflexivity |].
  destruct (ScanInt64 pmin (records w)) as [e0 | mn] eqn:Hn.
  { left. eexists; reflexivity. }
  right. exists mn.
  destruct (maxParam rit) as [pmax |] eqn:Hmax.
  2: { revert Ht. go_unfold. rewrite Hmin; simpl. rewrite Hn, Hmax.
       discriminate. }
  exists pmax. split; [reflexivity |]. split; [reflexivity |].
  destruct (ScanInt64 pmax (records w)) as [e0 | mx] eqn:Hx.
  - left. eexists; reflexivity.
  - right. eexists; reflexivity.
Qed.

(** C10: whenever [Transform] returns an error because the scan of min or
    of max failed, because min >= max, or because the column value could
    not be read, the caller receives a nil record and that error, and the
    records are as they were before the call. *)
Theorem Transform_error_leaves_record
    (rit : RandomIntTransformer) (w : World) (r : loc) (e : error) (s' : State) :
  Transform r (mkState rit w) = (Err e, s') ->
  (forall e0, e <> wrapError "unable to set new value: " e0) ->
  go_return (fst (Transform r (mkState rit w))) = Some (None, Some e) /\
  records (world s') = records w /\
  ((exists e0, e = wrapError ("unable to scan " +:+ quoted "min" +:+ " param: ") e0) \/
   (exists e0, e = wrapError ("unable to scan " +:+ quoted "max" +:+ " param: ") e0) \/
   (exists mn mx, mn >= mx /\
      e = errorString ("max value must be greater than min: got min = "
                       +:+ fmt_d mn +:+ " max = " +:+ fmt_d mx)) \/
   (exists e0, e = wrapError "unable to scan value: " e0)).
Proof.
  intros Ht Hset.
  split; [rewrite Ht; reflexivity |].
  destruct (Transform_Err_inv rit w r e s' Ht)
    as [pmin [Hmin [[e0 Hn] | [mn [pmax [Hn [Hmax [[e0 Hx] | [mx Hx]]]]]]]]].
  - rewrite (Transform_min_scan_fails rit w r pmin Hmin e0 Hn) in Ht.
    injection Ht as <- <-. split; [reflexivity |]. left. eexists; reflexivity.
  - rewrite (Transform_max_scan_fails rit w r pmin pmax Hmin Hmax mn e0 Hn Hx) in Ht.
    injection Ht as <- <-. split; [reflexivity |].
    right; left. eexists; reflexivity.
  - rewrite (Transform_bounds_resolved rit w r pmin pmax Hmin Hmax mn mx Hn Hx) in Ht.
    cbv zeta in Ht.
    destruct (mn >=? mx) eqn:Hb.
    { injection Ht as <- <-. split; [reflexivity |].
      right; right; left. exists mn, mx. split; [| reflexivity].
      apply Z.geb_le in Hb. lia. }
    destruct (records w !! r) as [rec |]; [| discriminate].
    destruct (GetRawColumnValueByIdx rec (columnIdx rit)) as [e0 | val].
    { injection Ht as <- <-. split; [reflexivity |].
      right; right; right. eexists; reflexivity. }
    destruct (IsNull val && keepNull rit); [discriminate |].
    destruct (RandomInt (rand rit) mn mx) as [v g'].
    destruct (SetColumnValueByIdx rec (columnIdx rit) v) as [e0 | rec'];
      [| discriminate].
    injection Ht as <- <-. exfalso. exact (Hset e0 eq_refl).
Qed.

Lemma Transform_error_leaves_record_witness :
  records
    (world (snd (Transform scenario.buf
                   (mkState (scenario.instance "id" 0 "x" "5" "true")
                      scenario.world0))))
  = records scenario.world0.
Proof.
  refine (proj1 (proj2 (Transform_error_leaves_record
            (scenario.instance "id" 0 "x" "5" "true") scenario.world0
            scenario.buf
            (wrapError ("unable to scan " +:+ quoted "min" +:+ " param: ")
               (errorString "invalid syntax: x"))
            _ _ _))).
  - reflexivity.
  - intros e0 H. discriminate H.
Defined.

(** ** Properties of the constructor *)

(** The scan log after the constructor scanned the column name. *)
Lemma NewRandomIntTransformer_column_scan_fails rt driver
    (ps : gmap string Parameterizer) w pcol e :
  ps !! "column" = Some pcol ->
  ScanString pcol (records w) = inl e ->
  NewRandomIntTransformer rt driver ps w =
    (Err (wrapError ("unable to scan " +:+ quoted "column" +:+ " param: ") e),
     mkWorld (records w) (scanned w ++ [PName (GetDefinition pcol)])).
Proof.
  intros Hc He. go_unfold. rewrite Hc; simpl. rewrite He. reflexivity.
Qed.

(** The constructor once the column name is scanned. *)
Lemma NewRandomIntTransformer_column_scanned rt driver
    (ps : gmap string Parameterizer) w pcol name :
  ps !! "column" = Some pcol ->
  ScanString pcol (records w) = inr name ->
  NewRandomIntTransformer rt driver ps w =
    let log1 := scanned w ++ [PName (GetDefinition pcol)] in
    match GetColumnByName driver name with
    | (idx, _, false) =>
        (Err (errorString ("column with name " +:+ name +:+ " is not found")),
         mkWorld (records w) log1)
    | (idx, _, true) =>
        match ps !! "keep_null" with
        | None => (Panic, mkWorld (records w) log1)
        | Some pkn =>
            let w2 := mkWorld (records w) (log1 ++ [PName (GetDefinition pkn)]) in
            match ScanBool pkn (records w) with
            | inl e =>
                (Err (wrapError ("unable to scan " +:+ quoted "keep_null"
                                 +:+ " param: ") e), w2)
            | inr kn =>
                (Ok (mkRandomIntTransformer name kn
                       (mkRand (NewSource rt (UnixMicro rt)) 0)
                       {[ idx := name ]} idx
                       (Some pcol) (ps !! "max") (ps !! "min") (Some pkn)), w2)
            end
        end
    end.
Proof.
  intros Hc Hs. go_unfold. rewrite Hc; simpl. rewrite Hs.
  destruct (GetColumnByName driver name) as [[idx c] ok].
  destruct ok; simpl; [| reflexivity].
  destruct (ps !! "keep_null") as [pkn |]; simpl; [| reflexivity].
  destruct (ScanBool pkn (records w)); simpl; [reflexivity |].
  rewrite insert_empty. reflexivity.
Qed.

(** A constructor call that returns an instance scanned the column name and
    the keep-null flag, and resolved the column. *)
Lemma NewRandomIntTransformer_Ok_inv rt driver
    (ps : gmap string Parameterizer) w rit w' :
  NewRandomIntTransformer rt driver ps w = (Ok rit, w') ->
  exists pcol pkn name idx c kn,
    ps !! "column" = Some pcol /\
    ps !! "keep_null" = Some pkn /\
    ScanString pcol (records w) = inr name /\
    GetColumnByName driver name = (idx, c, true) /\
    ScanBool pkn (records w) = inr kn /\
    rit = mkRandomIntTransformer name kn
            (mkRand (NewSource rt (UnixMicro rt)) 0)
            {[ idx := name ]} idx
            (Some pcol) (ps !! "max") (ps !! "min") (Some pkn) /\
    w' = mkWorld (records w)
           ((scanned w ++ [PName (GetDefinition pcol)])
              ++ [PName (GetDefinition pkn)]).
Proof.
  intros Hnew.
  destruct (ps !! "column") as [pcol |] eqn:Hc.
  2: { revert Hnew. go_unfold. rewrite Hc. discriminate. }
  destruct (ScanString pcol (records w)) as [e | name] eqn:Hs.
  { rewrite (NewRandomIntTransformer_column_scan_fails _ _ _ _ _ _ Hc Hs) in Hnew.
    discriminate. }
  rewrite (NewRandomIntTransformer_column_scanned _ _ _ _ _ _ Hc Hs) in Hnew.
  cbv zeta in Hnew.
  destruct (GetColumnByName driver name) as [[idx c] ok] eqn:Hg.
  destruct ok; [| discriminate].
  destruct (ps !! "keep_null") as [pkn |] eqn:Hk; [| discriminate].
  destruct (ScanBool pkn (records w)) as [e | kn] eqn:Hb; [discriminate |].
  injection Hnew as <- <-.
  exists pcol, pkn, name, idx, c, kn. repeat split; assumption || reflexivity.
Qed.

(** C7: constructing the transformer with a column name that
    [GetColumnByName] does not find fails with the error "column with name
    ... is not found", which names the column, and returns no instance. *)
Theorem NewRandomIntTransformer_column_not_found
    (rt : GoRuntime) (driver : Driver) (ps : gmap string Parameterizer)
    (w : World) (pcol : Parameterizer) (name : string) :
  ps !! "column" = Some pcol ->
  ScanString pcol (records w) = inr name ->
  snd (GetColumnByName driver name) = false ->
  exists e,
    fst (NewRandomIntTransformer rt driver ps w) = Err e /\
    go_return (fst (NewRandomIntTransformer rt driver ps w)) = Some (None, Some e) /\
    Error e = "column with name " +:+ name +:+ " is not found".
Proof.
  intros Hc Hs Hnf.
  rewrite (NewRandomIntTransformer_column_scanned _ _ _ _ _ _ Hc Hs). cbv zeta.
  destruct (GetColumnByName driver name) as [[idx c] ok]. simpl in Hnf.
  subst ok. eexists. repeat split.
Qed.

Lemma NewRandomIntTransformer_column_not_found_witness :
  exists e,
    fst (NewRandomIntTransformer scenario.runtime scenario.orders
           {[ "column" := scenario.static "column" "price" ]} scenario.world0)
    = Err e /\
    Error e = "column with name price is not found".
Proof.
  destruct (NewRandomIntTransformer_column_not_found
              scenario.runtime scenario.orders
              {[ "column" := scenario.static "column" "price" ]}
              scenario.world0 (scenario.static "column" "price") "price")
    as [e [He [_ Hmsg]]]; [reflexivity | reflexivity | reflexivity |].
  exists e. split; [exact He | exact Hmsg].
Defined.

(** No call changes the affected columns of the receiver. *)
Lemma after_affectedColumns c s :
  affectedColumns (self (after c s)) = affectedColumns (self s).
Proof.
  destruct c as [| r |]; [reflexivity | | reflexivity].
  destruct s as [rit w]. simpl. go_unfold.
  destruct (minParam rit) as [pmin |]; [| reflexivity]. simpl.
  destruct (ScanInt64 pmin (records w)); [reflexivity |]. simpl.
  destruct (maxParam rit) as [pmax |]; [| reflexivity]. simpl.
  destruct (ScanInt64 pmax (records w)) as [| mx]; [reflexivity |]. simpl.
  destruct (_ >=? mx); [reflexivity |]. simpl.
  destruct (records w !! r) as [rec |] eqn:Hr; [| reflexivity]. simpl.
  destruct (GetRawColumnValueByIdx rec (columnIdx rit)) as [| val];
    [reflexivity |]. simpl.
  destruct (IsNull val && keepNull rit); [reflexivity |]. simpl.
  rewrite Hr.
  destruct (SetColumnValueByIdx rec (columnIdx rit) _); reflexivity.
Qed.

Lemma run_calls_affectedColumns cs s :
  affectedColumns (self (run_calls cs s)) = affectedColumns (self s).
Proof.
  revert s. induction cs as [| c cs IH]; intros s; [reflexivity |].
  simpl. unfold run_calls in IH. rewrite IH. apply after_affectedColumns.
Qed.

(** C8: for every instance the constructor returns, [GetAffectedColumns] is
    the singleton map from the index of the resolved column to its name,
    and no sequence of [Init], [Transform] and [Done] calls changes it. *)
Theorem GetAffectedColumns_fixed
    (rt : GoRuntime) (driver : Driver) (ps : gmap string Parameterizer)
    (w w' : World) (rit : RandomIntTransformer) :
  NewRandomIntTransformer rt driver ps w = (Ok rit, w') ->
  (exists c, GetColumnByName driver (columnName rit) = (columnIdx rit, c, true)) /\
  GetAffectedColumns rit = {[ columnIdx rit := columnName rit ]} /\
  forall (cs : list call) (w1 : World),
    GetAffectedColumns (self (run_calls cs (mkState rit w1)))
    = GetAffectedColumns rit.
Proof.
  intros Hnew.
  destruct (NewRandomIntTransformer_Ok_inv _ _ _ _ _ _ Hnew)
    as (pcol & pkn & name & idx & c & kn & _ & _ & _ & Hg & _ & -> & _).
  simpl. split; [exists c; exact Hg |].
  split; [reflexivity |].
  intros cs w1. unfold GetAffectedColumns.
  rewrite run_calls_affectedColumns. reflexivity.
Qed.

Lemma GetAffectedColumns_fixed_witness :
  GetAffectedColumns
    (self (run_calls [CallInit; CallTransform scenario.buf;
                      CallTransform scenario.buf; CallDone]
             (mkState (scenario.instance "id" 0 "1" "10" "true")
                scenario.world0)))
  = {[ 0 := "id" ]}.
Proof.
  destruct (GetAffectedColumns_fixed scenario.runtime scenario.orders
              (scenario.parameters "id" "1" "10" "true") scenario.world0
              (mkWorld (records scenario.world0) ["column"; "keep_null"])
              (scenario.instance "id" 0 "1" "10" "true"))
    as [_ [Hset Hfix]]; [reflexivity |].
  rewrite Hfix. exact Hset.
Defined.

(** A call changes nothing of the receiver but its generator. *)
Lemma after_fields c s :
  columnName (self (after c s)) = columnName (self s) /\
  keepNull (self (after c s)) = keepNull (self s) /\
  columnIdx (self (after c s)) = columnIdx (self s) /\
  minParam (self (after c s)) = minParam (self s) /\
  maxParam (self (after c s)) = maxParam (self s).
Proof.
  destruct c as [| r |]; [repeat split | | repeat split].
  destruct s as [rit w]. simpl. go_unfold.
  destruct (minParam rit) as [pmin |] eqn:Hmin;
    [| simpl; rewrite ?Hmin; repeat split].
  simpl.
  destruct (ScanInt64 pmin (records w));
    [simpl; rewrite ?Hmin; repeat split |].
  simpl.
  destruct (maxParam rit) as [pmax |] eqn:Hmax;
    [| simpl; rewrite ?Hmin, ?Hmax; repeat split].
  simpl.
  destruct (ScanInt64 pmax (records w)) as [| mx];
    [simpl; rewrite ?Hmin, ?Hmax; repeat split |].
  simpl.
  destruct (_ >=? mx); [simpl; rewrite ?Hmin, ?Hmax; repeat split |]. simpl.
  destruct (records w !! r) as [rec |] eqn:Hr;
    [| simpl; rewrite ?Hmin, ?Hmax; repeat split].
  simpl.
  destruct (GetRawColumnValueByIdx rec (columnIdx rit)) as [| val];
    [simpl; rewrite ?Hmin, ?Hmax; repeat split |].
  simpl.
  destruct (IsNull val && keepNull rit);
    [simpl; rewrite ?Hmin, ?Hmax; repeat split |].
  simpl. rewrite Hr.
  destruct (SetColumnValueByIdx rec (columnIdx rit) _);
    simpl; rewrite ?Hmin, ?Hmax; repeat split.
Qed.

Lemma run_calls_fields cs s :
  minParam (self (run_calls cs s)) = minParam (self s) /\
  maxParam (self (run_calls cs s)) = maxParam (self s).
Proof.
  revert s. induction cs as [| c cs IH]; intros s; [split; reflexivity |].
  unfold run_calls in *. simpl.
  destruct (IH (after c s)) as [-> ->].
  destruct (after_fields c s) as (_ & _ & _ & -> & ->). split; reflexivity.
Qed.

(** The scans one call of [Transform] performs: min always, max when the
    scan of min succeeded. *)
Lemma Transform_scans rit w r pmin pmax :
  minParam rit = Some pmin ->
  maxParam rit = Some pmax ->
  scanned (world (snd (Transform r (mkState rit w)))) =
    scanned w ++
      PName (GetDefinition pmin) ::
        match ScanInt64 pmin (records w) with
        | inr _ => [PName (GetDefinition pmax)]
        | inl _ => []
        end.
Proof.
  intros Hmin Hmax.
  destruct (ScanInt64 pmin (records w)) as [e | mn] eqn:Hn.
  { rewrite (Transform_min_scan_fails rit w r pmin Hmin e Hn). reflexivity. }
  destruct (ScanInt64 pmax (records w)) as [e | mx] eqn:Hx.
  { rewrite (Transform_max_scan_fails rit w r pmin pmax Hmin Hmax mn e Hn Hx).
    simpl. unfold log2. rewrite <- app_assoc. reflexivity. }
  rewrite (Transform_bounds_resolved rit w r pmin pmax Hmin Hmax mn mx Hn Hx).
  cbv zeta. unfold log2. rewrite <- app_assoc. simpl.
  destruct (mn >=? mx); [reflexivity |].
  destruct (records w !! r) as [rec |]; [| reflexivity].
  destruct (GetRawColumnValueByIdx rec (columnIdx rit)) as [| val];
    [reflexivity |].
  destruct (IsNull val && keepNull rit); [reflexivity |].
  unfold RandomInt, Int63; simpl.
  destruct (SetColumnValueByIdx rec (columnIdx rit) _); reflexivity.
Qed.

(** C3, as stated, fails: with the literal bounds min = 10 and max = 5 the
    constructor returns an instance. *)
Lemma NewRandomIntTransformer_accepts_empty_range :
  ScanInt64 (scenario.static "min" "10") (records scenario.world0) = inr 10 /\
  ScanInt64 (scenario.static "max" "5") (records scenario.world0) = inr 5 /\
  10 >= 5 /\
  NewRandomIntTransformer scenario.runtime scenario.orders
    (scenario.parameters "id" "10" "5" "true") scenario.world0
  = (Ok (scenario.instance "id" 0 "10" "5" "true"),
     mkWorld (records scenario.world0) ["column"; "keep_null"]).
Proof. repeat split. lia. Qed.

(** C3, amended: the constructor does not look at the bounds. Whenever the
    column name scans and resolves and the keep-null flag scans, it returns
    an instance holding the min and max parameters as they were passed,
    unscanned; on that instance every call of [Transform] whose bounds
    resolve with min >= max returns an error. *)
Theorem NewRandomIntTransformer_defers_bounds_check
    (rt : GoRuntime) (driver : Driver) (ps : gmap string Parameterizer)
    (w : World) (pcol pkn : Parameterizer) (name : string) (kn : bool) :
  ps !! "column" = Some pcol ->
  ps !! "keep_null" = Some pkn ->
  ScanString pcol (records w) = inr name ->
  snd (GetColumnByName driver name) = true ->
  ScanBool pkn (records w) = inr kn ->
  exists (rit : RandomIntTransformer) (w' : World),
    NewRandomIntTransformer rt driver ps w = (Ok rit, w') /\
    minParam rit = ps !! "min" /\
    maxParam rit = ps !! "max" /\
    scanned w' = scanned w ++ [PName (GetDefinition pcol); PName (GetDefinition pkn)] /\
    forall (cs : list call) (w1 : World) (r : loc) (pmin pmax : Parameterizer)
           (mn mx : Z),
      let s := run_calls cs (mkState rit w1) in
      ps !! "min" = Some pmin ->
      ps !! "max" = Some pmax ->
      ScanInt64 pmin (records (world s)) = inr mn ->
      ScanInt64 pmax (records (world s)) = inr mx ->
      mn >= mx ->
      is_Err (fst (Transform r s)) = true.
Proof.
  intros Hc Hk Hs Hg Hb.
  rewrite (NewRandomIntTransformer_column_scanned _ _ _ _ _ _ Hc Hs). cbv zeta.
  destruct (GetColumnByName driver name) as [[idx c] ok]. simpl in Hg. subst ok.
  rewrite Hk, Hb.
  eexists _, _. split; [reflexivity |]. simpl.
  split; [reflexivity |]. split; [reflexivity |].
  split; [rewrite <- app_assoc; reflexivity |].
  intros cs w1 r pmin pmax mn mx. cbv zeta.
  pose proof (run_calls_fields cs (mkState
              (mkRandomIntTransformer name kn
                 (mkRand (NewSource rt (UnixMicro rt)) 0) {[ idx := name ]} idx
                 (Some pcol) (ps !! "max") (ps !! "min") (Some pkn)) w1))
    as [Hfmin Hfmax].
  set (s := run_calls cs _) in *. clearbody s. destruct s as [rit2 w2].
  simpl in Hfmin, Hfmax. simpl.
  intros Hpmin Hpmax Hn Hx Hge.
  rewrite Hpmin in Hfmin. rewrite Hpmax in Hfmax.
  destruct (Transform_empty_range rit2 w2 r pmin pmax mn mx
              Hfmin Hfmax Hn Hx Hge) as [e [-> _]].
  reflexivity.
Qed.

Lemma NewRandomIntTransformer_defers_bounds_check_witness :
  exists (rit : RandomIntTransformer) (w' : World),
    NewRandomIntTransformer scenario.runtime scenario.orders
      (scenario.parameters "id" "10" "5" "true") scenario.world0
    = (Ok rit, w') /\
    is_Err (fst (Transform scenario.buf (mkState rit scenario.world0))) = true.
Proof.
  destruct (NewRandomIntTransformer_defers_bounds_check
              scenario.runtime scenario.orders
              (scenario.parameters "id" "10" "5" "true") scenario.world0
              (scenario.static "column" "id") (scenario.static "keep_null" "true")
              "id" true)
    as [rit [w' [Hnew [_ [_ [_ Hfail]]]]]];
    [reflexivity | reflexivity | reflexivity | reflexivity | reflexivity |].
  exists rit, w'. split; [exact Hnew |].
  apply (Hfail [] scenario.world0 scenario.buf
           (scenario.static "min" "10") (scenario.static "max" "5") 10 5);
    [reflexivity | reflexivity | reflexivity | reflexivity | lia].
Defined.

(** C6, as stated, fails: with literal (static) bounds the constructor scans
    neither min nor max, and two calls of [Transform] scan min twice. *)
Lemma static_bounds_scanned_on_every_row :
  IsDynamic (scenario.static "min" "1") = false /\
  NewRandomIntTransformer scenario.runtime scenario.orders
    (scenario.parameters "id" "1" "10" "true") scenario.world0
  = (Ok (scenario.instance "id" 0 "1" "10" "true"),
     mkWorld (records scenario.world0) ["column"; "keep_null"]) /\
  scans_of "min" ["column"; "keep_null"] = 0%nat /\
  scans_of "min"
    (scanned (world (run_calls
       [CallTransform scenario.buf; CallTransform scenario.buf]
       (mkState (scenario.instance "id" 0 "1" "10" "true")
          (mkWorld (records scenario.world0) ["column"; "keep_null"])))))
  = 2%nat.
Proof. repeat split. Qed.

(** C6, amended: the constructor scans the column name and the keep-null
    flag, once each, and keeps the scanned values in the instance; it scans
    neither bound. Every call of [Transform] scans min, and max when the scan
    of min succeeded, whether the parameter is dynamic or static, and scans
    nothing else. *)
Theorem scans_at_construction_and_on_every_row
    (rt : GoRuntime) (driver : Driver) (ps : gmap string Parameterizer)
    (w w' : World) (rit : RandomIntTransformer) (pmin pmax : Parameterizer) :
  NewRandomIntTransformer rt driver ps w = (Ok rit, w') ->
  ps !! "min" = Some pmin ->
  ps !! "max" = Some pmax ->
  (exists pcol pkn,
     ps !! "column" = Some pcol /\ ps !! "keep_null" = Some pkn /\
     scanned w' = scanned w ++ [PName (GetDefinition pcol); PName (GetDefinition pkn)] /\
     ScanString pcol (records w) = inr (columnName rit) /\
     ScanBool pkn (records w) = inr (keepNull rit)) /\
  forall (cs : list call) (w1 : World) (r : loc),
    let s := run_calls cs (mkState rit w1) in
    scanned (world (after (CallTransform r) s)) =
      scanned (world s) ++
        PName (GetDefinition pmin) ::
          match ScanInt64 pmin (records (world s)) with
          | inr _ => [PName (GetDefinition pmax)]
          | inl _ => []
          end.
Proof.
  intros Hnew Hpmin Hpmax.
  destruct (NewRandomIntTransformer_Ok_inv _ _ _ _ _ _ Hnew)
    as (pcol & pkn & name & idx & c & kn & Hc & Hk & Hs & Hg & Hb & -> & ->).
  split.
  { exists pcol, pkn. simpl. repeat split; try assumption.
    rewrite <- app_assoc. reflexivity. }
  intros cs w1 r. cbv zeta.
  pose proof (run_calls_fields cs (mkState
              (mkRandomIntTransformer name kn
                 (mkRand (NewSource rt (UnixMicro rt)) 0) {[ idx := name ]} idx
                 (Some pcol) (ps !! "max") (ps !! "min") (Some pkn)) w1))
    as [Hfmin Hfmax].
  set (s := run_calls cs _) in *. clearbody s. destruct s as [rit2 w2].
  simpl in Hfmin, Hfmax.
  rewrite Hpmin in Hfmin. rewrite Hpmax in Hfmax.
  exact (Transform_scans rit2 w2 r pmin pmax Hfmin Hfmax).
Qed.

Lemma scans_at_construction_and_on_every_row_witness :
  scanned (world (after (CallTransform scenario.buf)
                    (mkState (scenario.instance "id" 0 "1" "10" "true")
                       scenario.world0)))
  = ["min"; "max"].
Proof.
  destruct (scans_at_construction_and_on_every_row
              scenario.runtime scenario.orders
              (scenario.parameters "id" "1" "10" "true") scenario.world0
              (mkWorld (records scenario.world0) ["column"; "keep_null"])
              (scenario.instance "id" 0 "1" "10" "true")
              (scenario.static "min" "1") (scenario.static "max" "10"))
    as [_ Hrow]; [reflexivity | reflexivity | reflexivity |].
  exact (Hrow [] scenario.world0 scenario.buf).
Defined.

(** ** Null values *)

(** A parameter the configuration leaves out is bound to its default. *)
Lemma InitParameters_keep_null_default driver
    (cfg : gmap string ParamSetting) (ps : gmap string Parameterizer) :
  cfg !! "keep_null" = None ->
  InitParameters driver (utils.Parameters RandomIntTransformerDefinition) cfg
    = inr ps ->
  exists def, ps !! "keep_null" = Some (StaticParameter def (Some "true")).
Proof.
  intros Hnone. simpl.
  destruct (InitParameter driver _ (cfg !! "column")) as [| p1]; [discriminate |].
  destruct (InitParameter driver _ (cfg !! "min")) as [| p2]; [discriminate |].
  destruct (InitParameter driver _ (cfg !! "max")) as [| p3]; [discriminate |].
  rewrite Hnone. simpl. intros [= <-].
  eexists.
  rewrite lookup_insert_ne by discriminate.
  rewrite lookup_insert_ne by discriminate.
  rewrite lookup_insert_ne by discriminate.
  apply lookup_insert_eq.
Qed.

(** C5, as stated, fails: the bounds are checked before the null flag is
    looked at, so a null column with keep-null set and min = max = 5 yields
    an error, not the record. *)
Lemma Transform_null_checks_bounds_first :
  GetRawColumnValueByIdx scenario.row 1 = inr (NewRawValue "" true) /\
  keepNull (scenario.instance "user_id" 1 "5" "5" "true") = true /\
  Transform scenario.buf
    (mkState (scenario.instance "user_id" 1 "5" "5" "true") scenario.world0)
  = (Err (errorString "max value must be greater than min: got min = 5 max = 5"),
     mkState (scenario.instance "user_id" 1 "5" "5" "true")
       (mkWorld (records scenario.world0) ["min"; "max"])).
Proof. repeat split. Qed.

(** C5, amended: for every record whose bound column is null and bounds that
    resolve with min < max: with keep-null set, [Transform] returns the
    record and leaves the records and the receiver unchanged; with
    keep-null disabled, the column receives a generated value and is no
    longer null. The flag is true for an instance constructed from a
    configuration that does not supply [keep_null]. *)
Theorem Transform_null_column
    (rit : RandomIntTransformer) (w : World) (r : loc)
    (pmin pmax : Parameterizer) (mn mx : Z) (rec : Record_) (val : RawValue) :
  minParam rit = Some pmin ->
  maxParam rit = Some pmax ->
  ScanInt64 pmin (records w) = inr mn ->
  ScanInt64 pmax (records w) = inr mx ->
  mn < mx ->
  records w !! r = Some rec ->
  GetRawColumnValueByIdx rec (columnIdx rit) = inr val ->
  IsNull val = true ->
  (keepNull rit = true ->
     exists s', Transform r (mkState rit w) = (Ok r, s') /\
                self s' = rit /\ records (world s') = records w) /\
  (keepNull rit = false ->
     exists (v : Z) (s' : State) (rec' : Record_),
       Transform r (mkState rit w) = (Ok r, s') /\
       mn <= v <= mx /\
       records (world s') !! r = Some rec' /\
       Row rec' !! Z.to_nat (columnIdx rit)
         = Some (NewRawValue (EncodeInt64 v) false)) /\
  (forall rt driver (cfg : gmap string ParamSetting)
          (ps : gmap string Parameterizer) w0 rit0 w0',
     cfg !! "keep_null" = None ->
     InitParameters driver (utils.Parameters RandomIntTransformerDefinition) cfg
       = inr ps ->
     NewRandomIntTransformer rt driver ps w0 = (Ok rit0, w0') ->
     keepNull rit0 = true).
Proof.
  intros Hmin Hmax Hn Hx Hlt Hr Hget Hnull.
  split; [| split].
  - intros Hkeep.
    rewrite (Transform_bounds_resolved rit w r pmin pmax Hmin Hmax mn mx Hn Hx).
    cbv zeta.
    assert (Hb : (mn >=? mx) = false).
    { destruct (mn >=? mx) eqn:E; [apply Z.geb_le in E; lia | reflexivity]. }
    rewrite Hb, Hr, Hget, Hnull, Hkeep. simpl.
    eexists. split; [reflexivity |]. split; reflexivity.
  - intros Hkeep.
    destruct (Transform_generates_in_place rit w r pmin pmax mn mx rec val
                Hmin Hmax Hn Hx Hlt Hr Hget (or_intror Hkeep))
      as (v & s' & rec' & Ht & Hv & Hrec & Hslot & _).
    exists v, s', rec'. repeat split; try assumption; apply Hv.
  - intros rt driver cfg ps w0 rit0 w0' Hnone Hinit Hnew.
    destruct (InitParameters_keep_null_default driver cfg ps Hnone Hinit)
      as [def Hdef].
    destruct (NewRandomIntTransformer_Ok_inv _ _ _ _ _ _ Hnew)
      as (pcol & pkn & name & idx & c & kn & _ & Hk & _ & _ & Hb & -> & _).
    rewrite Hdef in Hk. injection Hk as <-. simpl in Hb.
    injection Hb as <-. reflexivity.
Qed.

Lemma Transform_null_column_witness :
  (exists s',
     Transform scenario.buf
       (mkState (scenario.instance "user_id" 1 "1" "10" "true") scenario.world0)
     = (Ok scenario.buf, s') /\
     records (world s') = records scenario.world0) /\
  keepNull (scenario.instance "user_id" 1 "1" "10" "true") = true.
Proof.
  destruct (Transform_null_column
              (scenario.instance "user_id" 1 "1" "10" "true") scenario.world0
              scenario.buf (scenario.static "min" "1") (scenario.static "max" "10")
              1 10 scenario.row (NewRawValue "" true))
    as [Hkeep [_ Hdefault]];
    [reflexivity | reflexivity | reflexivity | reflexivity | lia
    | reflexivity | reflexivity | reflexivity |].
  split.
  - destruct (Hkeep eq_refl) as [s' [Ht [_ Hrec]]]. exists s'. split; assumption.
  - apply (Hdefault scenario.runtime scenario.orders
             (scenario.settings "user_id" "1" "10" None)
             (scenario.parameters "user_id" "1" "10" "true") scenario.world0
             (scenario.instance "user_id" 1 "1" "10" "true")
             (mkWorld (records scenario.world0) ["column"; "keep_null"]));
      reflexivity.
Defined.

(** ** The restore base *)

Module restorers_facts.

Import pgrestore toc restorers.

Lemma wrapErr_Ok_inv {S A : Type} prefix (m : M S A) s a s' :
  wrapErr prefix m s = (Ok a, s') -> m s = (Ok a, s').
Proof.
  unfold wrapErr. destruct (m s) as [[a0 | e |] s0]; intros H;
    [exact H | discriminate | discriminate].
Qed.

(** Statements that all succeed act on the session as [apply_all] says, and
    leave the database's permissions alone. *)
Lemma exec_all_Ok sts tx tx' :
  exec_all sts tx = (Ok tt, tx') ->
  apply_all sts (session tx) = Some (session tx') /\ permits tx' = permits tx.
Proof.
  revert tx. induction sts as [| st sts IH]; intros tx.
  - simpl. unfold ret. intros [= <-]. split; reflexivity.
  - simpl. unfold bind, Exec.
    destruct (permits tx (session tx) st); [| discriminate].
    destruct (apply st (session tx)) as [s1 |]; [| discriminate].
    intros H. destruct (IH _ H) as [Ha Hp]. simpl in Ha, Hp.
    split; assumption.
Qed.

Lemma set_flags_set_flags f g trs :
  set_flags f (set_flags g trs) = set_flags f trs.
Proof.
  unfold set_flags. rewrite map_map. reflexivity.
Qed.

Lemma set_flags_same f trs :
  Forall (fun t => snd t = f) trs -> set_flags f trs = trs.
Proof.
  induction 1 as [| [n g] trs Hg _ IH]; [reflexivity |].
  simpl in *. subst g. rewrite IH. reflexivity.
Qed.

(** Teardown names the inverse of each setup statement, last first. *)
Lemma reset_statements_inverse rb sts :
  setup_statements rb = Some sts ->
  reset_statements rb = Some (map inverse (rev sts)).
Proof.
  unfold setup_statements, reset_statements.
  destruct (opt rb) as [o |]; [| discriminate].
  destruct (String.eqb (SuperUser o) ""), (DisableTriggers o),
    (UseSessionReplicationRoleReplica o);
    try (destruct (relation rb) as [[nsp tag] |]; [| discriminate]);
    intros [= <-]; reflexivity.
Qed.

(** Disabling all triggers and enabling them again leaves every trigger
    enabled in origin mode. *)
Lemma apply_enable_disable schema table s s1 s2 :
  apply (DisableTriggerAll schema table) s = Some s1 ->
  apply (EnableTriggerAll schema table) s1 = Some s2 ->
  exists trs,
    triggers s !! (schema, table) = Some trs /\
    s2 = mkSession (session_user s) (current_user s)
           (session_replication_role s) (default_replication_role s)
           (<[(schema, table) := set_flags TgO trs]> (triggers s)).
Proof.
  simpl. destruct (triggers s !! (schema, table)) as [trs |] eqn:Ht;
    [| discriminate].
  intros [= <-]. simpl. rewrite lookup_insert_eq. intros [= <-].
  exists trs. split; [reflexivity |].
  rewrite insert_insert_eq, set_flags_set_flags. reflexivity.
Qed.

(** Setup followed by teardown is the identity on a session that was at its
    defaults in what the settings toggle. *)
Lemma apply_all_round_trip rb o sts rts s s1 s2 :
  opt rb = Some o ->
  setup_statements rb = Some sts ->
  reset_statements rb = Some rts ->
  apply_all sts s = Some s1 ->
  apply_all rts s1 = Some s2 ->
  (SuperUser o <> "" -> current_user s = session_user s) ->
  (DisableTriggers o = true ->
   forall rel trs, relation rb = Some rel -> triggers s !! rel = Some trs ->
                   Forall (fun t => snd t = TgO) trs) ->
  (UseSessionReplicationRoleReplica o = true ->
   session_replication_role s = default_replication_role s) ->
  s2 = s.
Proof.
  intros Ho. unfold setup_statements, reset_statements. rewrite Ho.
  destruct s as [su cu rr dr tr]. simpl.
  destruct (String.eqb (SuperUser o) "") eqn:Hsu;
    [apply String.eqb_eq in Hsu | apply String.eqb_neq in Hsu];
    destruct (DisableTriggers o), (UseSessionReplicationRoleReplica o);
    try (destruct (relation rb) as [[nsp tag] |]; [| discriminate]);
    intros [= <-] [= <-]; simpl;
    try (destruct (tr !! (nsp, tag)) as [trs |] eqn:Ht; [| discriminate]; simpl);
    intros [= <-]; simpl; rewrite ?lookup_insert_eq; simpl;
    intros [= <-] Hrole Htrig Hrepl;
    try (specialize (Hrole Hsu); subst cu);
    try (specialize (Hrepl eq_refl); subst rr);
    try (specialize (Htrig eq_refl _ _ eq_refl Ht);
         rewrite insert_insert_eq, set_flags_set_flags,
           (set_flags_same _ _ Htrig), (insert_id _ _ _ Ht));
    reflexivity.
Qed.

(** Setup followed by teardown leaves every trigger of the target relation
    with the flag [TgO], whatever its flag was. *)
Lemma apply_all_reenables rb o sts rts s s1 s2 rel trs :
  opt rb = Some o ->
  setup_statements rb = Some sts ->
  reset_statements rb = Some rts ->
  apply_all sts s = Some s1 ->
  apply_all rts s1 = Some s2 ->
  DisableTriggers o = true ->
  relation rb = Some rel ->
  triggers s !! rel = Some trs ->
  triggers s2 !! rel = Some (set_flags TgO trs).
Proof.
  intros Ho. unfold setup_statements, reset_statements. rewrite Ho.
  intros Hsts Hrts Hs1 Hs2 Hdis Hrel Ht. rewrite Hdis, Hrel in Hsts, Hrts.
  destruct rel as [nsp tag]. destruct s as [su cu rr dr tr]. simpl in Ht.
  destruct (String.eqb (SuperUser o) ""),
    (UseSessionReplicationRoleReplica o);
    injection Hsts as <-; injection Hrts as <-;
    simpl in Hs1; rewrite Ht in Hs1; injection Hs1 as <-;
    simpl in Hs2; rewrite lookup_insert_eq in Hs2; injection Hs2 as <-;
    simpl; rewrite lookup_insert_eq, set_flags_set_flags; reflexivity.
Qed.

(** C1, as stated, fails: on a relation whose trigger was disabled before
    setup, setup followed by teardown leaves the trigger enabled. *)
Lemma setupTx_resetTx_enables_disabled_trigger :
  fst (setupTx (newRestoreBase (Some scenario.orders_entry) None
                  (Some scenario.full_settings)) (scenario.test_tx TgD))
  = Ok tt /\
  fst (resetTx (newRestoreBase (Some scenario.orders_entry) None
                  (Some scenario.full_settings))
         (snd (setupTx (newRestoreBase (Some scenario.orders_entry) None
                          (Some scenario.full_settings)) (scenario.test_tx TgD))))
  = Ok tt /\
  triggers (session (scenario.test_tx TgD)) !! ("public", "orders")
  = Some [("trg_set_order_date", TgD)] /\
  triggers
    (session
       (snd (resetTx (newRestoreBase (Some scenario.orders_entry) None
                        (Some scenario.full_settings))
               (snd (setupTx (newRestoreBase (Some scenario.orders_entry) None
                                (Some scenario.full_settings))
                       (scenario.test_tx TgD))))))
    !! ("public", "orders")
  = Some [("trg_set_order_date", TgO)].
Proof. repeat split. Qed.

(** C1, amended: for every restore settings configuration, when setup and
    then teardown succeed on the same transaction: the teardown statements
    are the inverses of the setup statements in reverse order; when trigger
    suppression is configured, every trigger of the target relation has the
    flag [TgO] (enabled in origin mode) after teardown, whatever its flag
    was before setup; and when the session was at its defaults in what the
    settings toggle (the role in force is the login role when a privileged
    role is configured; every trigger of the target relation has the flag
    [TgO] when trigger suppression is configured; the replication role is
    the session default when replica mode is configured), the session after
    teardown is the session before setup. *)
Theorem setupTx_resetTx_restores_default_session
    (rb : restoreBase) (o : DataSectionSettings) (tx tx1 tx2 : Tx) :
  opt rb = Some o ->
  setupTx rb tx = (Ok tt, tx1) ->
  resetTx rb tx1 = (Ok tt, tx2) ->
  (exists sts, setup_statements rb = Some sts /\
               reset_statements rb = Some (map inverse (rev sts))) /\
  (DisableTriggers o = true ->
   forall rel trs, relation rb = Some rel ->
                   triggers (session tx) !! rel = Some trs ->
                   triggers (session tx2) !! rel = Some (set_flags TgO trs)) /\
  ((SuperUser o <> "" ->
    current_user (session tx) = session_user (session tx)) ->
   (DisableTriggers o = true ->
    forall rel trs, relation rb = Some rel ->
                    triggers (session tx) !! rel = Some trs ->
                    Forall (fun t => snd t = TgO) trs) ->
   (UseSessionReplicationRoleReplica o = true ->
    session_replication_role (session tx)
    = default_replication_role (session tx)) ->
   session tx2 = session tx).
Proof.
  intros Ho Hsetup Hreset.
  unfold setupTx in Hsetup. unfold resetTx in Hreset.
  destruct (setup_statements rb) as [sts |] eqn:Hsts; [| discriminate].
  pose proof (reset_statements_inverse rb sts Hsts) as Hrts.
  rewrite Hrts in Hreset.
  apply wrapErr_Ok_inv, exec_all_Ok in Hsetup as [Hs1 _].
  apply wrapErr_Ok_inv, exec_all_Ok in Hreset as [Hs2 _].
  split; [exists sts; split; [reflexivity | exact Hrts] |].
  split.
  - intros Hdis rel trs Hrel Ht.
    exact (apply_all_reenables rb o sts _ _ _ _ rel trs Ho Hsts Hrts Hs1 Hs2
             Hdis Hrel Ht).
  - intros Hrole Htrig Hrepl.
    exact (apply_all_round_trip rb o sts _ _ _ _ Ho Hsts Hrts Hs1 Hs2
             Hrole Htrig Hrepl).
Qed.

Lemma setupTx_resetTx_restores_default_session_witness :
  session
    (snd (resetTx (newRestoreBase (Some scenario.orders_entry) None
                     (Some scenario.full_settings))
            (snd (setupTx (newRestoreBase (Some scenario.orders_entry) None
                             (Some scenario.full_settings))
                    (scenario.test_tx TgO)))))
  = scenario.test_session TgO.
Proof.
  refine (proj2 (proj2 (setupTx_resetTx_restores_default_session
            (newRestoreBase (Some scenario.orders_entry) None
               (Some scenario.full_settings))
            scenario.full_settings (scenario.test_tx TgO) _ _
            eq_refl eq_refl eq_refl)) _ _ _).
  - intros _. reflexivity.
  - intros _ rel trs [= <-]. intros [= <-].
    constructor; [reflexivity | constructor].
  - intros _. reflexivity.
Defined.

(** [Test_restoreBase_setupTx]: after setup the trigger of [public.orders]
    is disabled and the replication role is [replica]. *)
Example Test_restoreBase_setupTx :
  let tx1 := snd (setupTx (newRestoreBase (Some scenario.orders_entry) None
                             (Some scenario.full_settings))
                    (scenario.test_tx TgO)) in
  triggers (session tx1) !! ("public", "orders")
    = Some [("trg_set_order_date", TgD)] /\
  session_replication_role (session tx1) = replica.
Proof. split; reflexivity. Qed.

(** [Test_restoreBase_resetTx]: from the privileged role, with the triggers
    disabled and the replication role [replica], teardown leaves the trigger
    enabled and the replication role [origin]. *)
Example Test_restoreBase_resetTx :
  let tx0 :=
    mkTx (mkSession "non_super_user" "testuser" replica origin
            {[ ("public", "orders") := [("trg_set_order_date", TgD)] ]})
         (fun _ _ => true) in
  let rb := newRestoreBase (Some scenario.orders_entry) None
              (Some scenario.full_settings) in
  fst (resetTx rb tx0) = Ok tt /\
  session (snd (resetTx rb tx0)) = scenario.test_session TgO.
Proof. split; reflexivity. Qed.

(** C9: for every entry whose backing object holds the compressed encoding
    of a payload, [getObject] returns an open stream whose contents are
    that payload, byte for byte; one read with a buffer that is large enough
    yields all of it. *)
Theorem getObject_round_trip
    (codec : Codec) (rb : restoreBase) (store : Storage) (e : Entry)
    (name : string) (payload : list Byte.byte) :
  st rb = Some store ->
  entry rb = Some e ->
  FileName e = Some name ->
  objects store !! name = Some (compress codec payload) ->
  exists rc : ReadCloser,
    getObject codec rb = Ok rc /\
    contents rc = payload /\
    closed rc = false /\
    forall n : nat,
      payload <> [] -> (length payload <= n)%nat ->
      fst (Read n rc) = Ok payload.
Proof.
  intros Hst He Hf Hobj.
  unfold getObject, GetObject. rewrite Hst, He, Hf, Hobj.
  rewrite decompress_compress.
  eexists. split; [reflexivity |]. split; [reflexivity |].
  split; [reflexivity |].
  intros n Hne Hlen. unfold Read. simpl.
  destruct payload as [| b bs]; [contradiction |].
  simpl. rewrite take_ge by exact Hlen. reflexivity.
Qed.

Lemma getObject_round_trip_witness :
  exists rc : ReadCloser,
    getObject scenario.stored
      (newRestoreBase (Some scenario.orders_entry)
         (Some (mkStorage {[ "test.tar.gz" :=
                  compress scenario.stored scenario.test_data ]}))
         (Some (mkDataSectionSettings false false "")))
    = Ok rc /\
    fst (Read 1024 rc) = Ok scenario.test_data.
Proof.
  destruct (getObject_round_trip scenario.stored
              (newRestoreBase (Some scenario.orders_entry)
                 (Some (mkStorage {[ "test.tar.gz" :=
                          compress scenario.stored scenario.test_data ]}))
                 (Some (mkDataSectionSettings false false "")))
              (mkStorage {[ "test.tar.gz" :=
                 compress scenario.stored scenario.test_data ]})
              scenario.orders_entry "test.tar.gz" scenario.test_data)
    as [rc [Hget [_ [_ Hread]]]];
    [reflexivity | reflexivity | reflexivity | reflexivity |].
  exists rc. split; [exact Hget |].
  apply Hread; [discriminate | vm_compute; lia].
Defined.

End restorers_facts.

(** ** Further properties of the constructor *)

(** The constructor returns an instance exactly when the column name scans,
    the driver finds the column and the keep-null flag scans; the instance
    then holds the scanned name and flag, the index the driver gave, the
    parameters as they were passed and a generator seeded from the clock
    that has drawn nothing. *)
Theorem NewRandomIntTransformer_Ok_iff
    (rt : GoRuntime) (driver : Driver) (ps : gmap string Parameterizer)
    (w w' : World) (rit : RandomIntTransformer) :
  NewRandomIntTransformer rt driver ps w = (Ok rit, w') <->
  exists pcol pkn name idx c kn,
    ps !! "column" = Some pcol /\
    ps !! "keep_null" = Some pkn /\
    ScanString pcol (records w) = inr name /\
    GetColumnByName driver name = (idx, c, true) /\
    ScanBool pkn (records w) = inr kn /\
    rit = mkRandomIntTransformer name kn
            (mkRand (NewSource rt (UnixMicro rt)) 0)
            {[ idx := name ]} idx
            (Some pcol) (ps !! "max") (ps !! "min") (Some pkn) /\
    w' = mkWorld (records w)
           ((scanned w ++ [PName (GetDefinition pcol)])
              ++ [PName (GetDefinition pkn)]).
Proof.
  split; [apply NewRandomIntTransformer_Ok_inv |].
  intros (pcol & pkn & name & idx & c & kn & Hc & Hk & Hs & Hg & Hb & -> & ->).
  rewrite (NewRandomIntTransformer_column_scanned _ _ _ _ _ _ Hc Hs). cbv zeta.
  rewrite Hg, Hk, Hb. reflexivity.
Qed.

(** When the scan of the column name fails, the constructor returns that
    failure behind the prefix naming the parameter; it has scanned nothing
    else. *)
Theorem NewRandomIntTransformer_column_scan_error
    (rt : GoRuntime) (driver : Driver) (ps : gmap string Parameterizer)
    (w : World) (pcol : Parameterizer) (cause : error) :
  ps !! "column" = Some pcol ->
  ScanString pcol (records w) = inl cause ->
  exists e w',
    NewRandomIntTransformer rt driver ps w = (Err e, w') /\
    Error e = ("unable to scan " +:+ quoted "column" +:+ " param: ") +:+ Error cause /\
    scanned w' = scanned w ++ [PName (GetDefinition pcol)].
Proof.
  intros Hc Hs.
  rewrite (NewRandomIntTransformer_column_scan_fails _ _ _ _ _ _ Hc Hs).
  eexists _, _. repeat split.
Qed.

Lemma NewRandomIntTransformer_column_scan_error_witness :
  exists e w',
    NewRandomIntTransformer scenario.runtime scenario.orders
      {[ "column" := StaticParameter (scenario.definition "column") None ]}
      scenario.world0
    = (Err e, w') /\
    scanned w' = ["column"].
Proof.
  destruct (NewRandomIntTransformer_column_scan_error
              scenario.runtime scenario.orders
              {[ "column" := StaticParameter (scenario.definition "column") None ]}
              scenario.world0
              (StaticParameter (scenario.definition "column") None)
              (errorString "parameter value is not set"))
    as [e [w' [Hnew [_ Hlog]]]]; [reflexivity | reflexivity |].
  exists e, w'. split; [exact Hnew | exact Hlog].
Defined.

(** When the column resolves and the scan of the keep-null flag fails, the
    constructor returns that failure behind the prefix naming the
    parameter, and no instance. *)
Theorem NewRandomIntTransformer_keep_null_scan_error
    (rt : GoRuntime) (driver : Driver) (ps : gmap string Parameterizer)
    (w : World) (pcol pkn : Parameterizer) (name : string) (cause : error) :
  ps !! "column" = Some pcol ->
  ps !! "keep_null" = Some pkn ->
  ScanString pcol (records w) = inr name ->
  snd (GetColumnByName driver name) = true ->
  ScanBool pkn (records w) = inl cause ->
  exists e w',
    NewRandomIntTransformer rt driver ps w = (Err e, w') /\
    go_return (fst (NewRandomIntTransformer rt driver ps w)) = Some (None, Some e) /\
    Error e = ("unable to scan " +:+ quoted "keep_null" +:+ " param: ")
              +:+ Error cause.
Proof.
  intros Hc Hk Hs Hg Hb.
  rewrite (NewRandomIntTransformer_column_scanned _ _ _ _ _ _ Hc Hs). cbv zeta.
  destruct (GetColumnByName driver name) as [[idx c] ok]. simpl in Hg. subst ok.
  rewrite Hk, Hb. eexists _, _. repeat split.
Qed.

Lemma NewRandomIntTransformer_keep_null_scan_error_witness :
  exists e w',
    NewRandomIntTransformer scenario.runtime scenario.orders
      (scenario.parameters "id" "1" "10" "maybe") scenario.world0
    = (Err e, w') /\
    Error e = ("unable to scan " +:+ quoted "keep_null" +:+ " param: ")
              +:+ "invalid syntax: maybe".
Proof.
  destruct (NewRandomIntTransformer_keep_null_scan_error
              scenario.runtime scenario.orders
              (scenario.parameters "id" "1" "10" "maybe") scenario.world0
              (scenario.static "column" "id")
              (scenario.static "keep_null" "maybe") "id"
              (errorString "invalid syntax: maybe"))
    as [e [w' [Hnew [_ Hmsg]]]];
    [reflexivity | reflexivity | reflexivity | reflexivity | reflexivity |].
  exists e, w'. split; [exact Hnew | exact Hmsg].
Defined.

(** Whatever the constructor returns, it leaves the records as they were,
    and the scans it performed are, in order, a prefix of: the column name,
    the keep-null flag. It scans neither bound on any path. *)
Theorem NewRandomIntTransformer_frame
    (rt : GoRuntime) (driver : Driver) (ps : gmap string Parameterizer)
    (w : World) :
  records (snd (NewRandomIntTransformer rt driver ps w)) = records w /\
  exists l : list string,
    scanned (snd (NewRandomIntTransformer rt driver ps w)) = scanned w ++ l /\
    l `prefix_of` (scan_name (ps !! "column") ++ scan_name (ps !! "keep_null")).
Proof.
  destruct (ps !! "column") as [pcol |] eqn:Hc.
  2: { go_unfold. rewrite Hc. simpl. split; [reflexivity |].
       exists []. rewrite app_nil_r. split; [reflexivity | apply prefix_nil]. }
  destruct (ScanString pcol (records w)) as [e | name] eqn:Hs.
  { rewrite (NewRandomIntTransformer_column_scan_fails _ _ _ _ _ _ Hc Hs).
    simpl. split; [reflexivity |].
    exists [PName (GetDefinition pcol)]. split; [reflexivity |].
    simpl. eexists; reflexivity. }
  rewrite (NewRandomIntTransformer_column_scanned _ _ _ _ _ _ Hc Hs). cbv zeta.
  destruct (GetColumnByName driver name) as [[idx c] ok].
  destruct ok.
  2: { simpl. split; [reflexivity |].
       exists [PName (GetDefinition pcol)]. split; [reflexivity |].
       simpl. eexists; reflexivity. }
  destruct (ps !! "keep_null") as [pkn |].
  2: { simpl. split; [reflexivity |].
       exists [PName (GetDefinition pcol)]. split; [reflexivity |].
       simpl. eexists; reflexivity. }
  assert (Hfull : forall o : outcome RandomIntTransformer,
            records (snd (o, mkWorld (records w)
              ((scanned w ++ [PName (GetDefinition pcol)])
                 ++ [PName (GetDefinition pkn)]))) = records w /\
            exists l, scanned (snd (o, mkWorld (records w)
              ((scanned w ++ [PName (GetDefinition pcol)])
                 ++ [PName (GetDefinition pkn)]))) = scanned w ++ l /\
              l `prefix_of` (scan_name (Some pcol) ++ scan_name (Some pkn))).
  { intros o. simpl. split; [reflexivity |].
    exists [PName (GetDefinition pcol); PName (GetDefinition pkn)].
    split; [rewrite <- app_assoc; reflexivity | reflexivity]. }
  destruct (ScanBool pkn (records w)); apply Hfull.
Qed.

(** ** Further properties of [Transform] *)

(** Every way a call of [Transform] can go. *)
Lemma Transform_cases rit w r :
  match minParam rit with
  | None => Transform r (mkState rit w) = (Panic, mkState rit w)
  | Some pmin =>
      let w1 := mkWorld (records w) (scanned w ++ [PName (GetDefinition pmin)]) in
      match ScanInt64 pmin (records w) with
      | inl e =>
          Transform r (mkState rit w) =
            (Err (wrapError ("unable to scan " +:+ quoted "min" +:+ " param: ") e),
             mkState rit w1)
      | inr mn =>
          match maxParam rit with
          | None => Transform r (mkState rit w) = (Panic, mkState rit w1)
          | Some pmax =>
              let s2 := mkState rit (mkWorld (records w) (log2 w pmin pmax)) in
              match ScanInt64 pmax (records w) with
              | inl e =>
                  Transform r (mkState rit w) =
                    (Err (wrapError ("unable to scan " +:+ quoted "max"
                                     +:+ " param: ") e), s2)
              | inr mx =>
                  (mn >= mx /\ exists e, Transform r (mkState rit w) = (Err e, s2)) \/
                  (mn < mx /\ records w !! r = None /\
                   Transform r (mkState rit w) = (Panic, s2)) \/
                  (mn < mx /\ exists rec e, records w !! r = Some rec /\
                     GetRawColumnValueByIdx rec (columnIdx rit) = inl e /\
                     Transform r (mkState rit w) =
                       (Err (wrapError "unable to scan value: " e), s2)) \/
                  (mn < mx /\ exists rec val, records w !! r = Some rec /\
                     GetRawColumnValueByIdx rec (columnIdx rit) = inr val /\
                     IsNull val && keepNull rit = true /\
                     Transform r (mkState rit w) = (Ok r, s2)) \/
                  (mn < mx /\ exists rec val, records w !! r = Some rec /\
                     GetRawColumnValueByIdx rec (columnIdx rit) = inr val /\
                     IsNull val && keepNull rit = false /\
                     let v := fst (RandomInt (rand rit) mn mx) in
                     let rit' :=
                       mkRandomIntTransformer (columnName rit) (keepNull rit)
                         (snd (RandomInt (rand rit) mn mx))
                         (affectedColumns rit) (columnIdx rit) (columnParam rit)
                         (maxParam rit) (minParam rit) (keepNullParam rit) in
                     match SetColumnValueByIdx rec (columnIdx rit) v with
                     | inr rec' =>
                         Transform r (mkState rit w) =
                           (Ok r, mkState rit'
                                    (mkWorld (<[r := rec']> (records w))
                                       (log2 w pmin pmax)))
                     | inl e =>
                         Transform r (mkState rit w) =
                           (Err (wrapError "unable to set new value: " e),
                            mkState rit' (mkWorld (records w) (log2 w pmin pmax)))
                     end)
              end
          end
      end
  end.
Proof.
  destruct (minParam rit) as [pmin |] eqn:Hmin.
  2: { go_unfold. rewrite Hmin. reflexivity. }
  cbv zeta.
  destruct (ScanInt64 pmin (records w)) as [e | mn] eqn:Hn.
  { exact (Transform_min_scan_fails rit w r pmin Hmin e Hn). }
  destruct (maxParam rit) as [pmax |] eqn:Hmax.
  2: { go_unfold. rewrite Hmin; simpl. rewrite Hn, Hmax. reflexivity. }
  destruct (ScanInt64 pmax (records w)) as [e | mx] eqn:Hx.
  { exact (Transform_max_scan_fails rit w r pmin pmax Hmin Hmax mn e Hn Hx). }
  rewrite (Transform_bounds_resolved rit w r pmin pmax Hmin Hmax mn mx Hn Hx).
  cbv zeta.
  destruct (mn >=? mx) eqn:Hb.
  { left. apply Z.geb_le in Hb. split; [lia | eexists; reflexivity]. }
  assert (Hlt : mn < mx).
  { destruct (Z.lt_ge_cases mn mx) as [H | H]; [exact H |].
    apply Z.geb_le in H. congruence. }
  right.
  destruct (records w !! r) as [rec |]; [| left; repeat split; exact Hlt].
  right.
  destruct (GetRawColumnValueByIdx rec (columnIdx rit)) as [e | val] eqn:Hget.
  { left. split; [exact Hlt |]. exists rec, e. repeat split; assumption. }
  right.
  destruct (IsNull val && keepNull rit) eqn:Hk.
  { left. split; [exact Hlt |]. exists rec, val. repeat split; assumption. }
  right. split; [exact Hlt |]. exists rec, val.
  split; [reflexivity |]. split; [assumption |]. split; [assumption |].
  destruct (RandomInt (rand rit) mn mx) as [v g']. simpl.
  rewrite Hmin, Hmax.
  destruct (SetColumnValueByIdx rec (columnIdx rit) v); reflexivity.
Qed.

(** When the scan of min fails, [Transform] returns that failure behind the
    prefix naming the parameter. Max is not scanned, the receiver and the
    records are as before. *)
Theorem Transform_min_scan_error
    (rit : RandomIntTransformer) (w : World) (r : loc)
    (pmin : Parameterizer) (cause : error) :
  minParam rit = Some pmin ->
  ScanInt64 pmin (records w) = inl cause ->
  exists e s',
    Transform r (mkState rit w) = (Err e, s') /\
    Error e = ("unable to scan " +:+ quoted "min" +:+ " param: ") +:+ Error cause /\
    self s' = rit /\
    records (world s') = records w /\
    scanned (world s') = scanned w ++ [PName (GetDefinition pmin)].
Proof.
  intros Hmin Hn.
  rewrite (Transform_min_scan_fails rit w r pmin Hmin cause Hn).
  eexists _, _. repeat split.
Qed.

Lemma Transform_min_scan_error_witness :
  exists e s',
    Transform scenario.buf
      (mkState (scenario.instance "id" 0 "x" "y" "true") scenario.world0)
    = (Err e, s') /\
    scanned (world s') = ["min"].
Proof.
  destruct (Transform_min_scan_error
              (scenario.instance "id" 0 "x" "y" "true") scenario.world0
              scenario.buf (scenario.static "min" "x")
              (errorString "invalid syntax: x"))
    as [e [s' [Ht [_ [_ [_ Hlog]]]]]]; [reflexivity | reflexivity |].
  exists e, s'. split; [exact Ht | exact Hlog].
Defined.

(** When min scans and the scan of max fails, [Transform] returns that
    failure behind the prefix naming the parameter; the receiver and the
    records are as before. *)
Theorem Transform_max_scan_error
    (rit : RandomIntTransformer) (w : World) (r : loc)
    (pmin pmax : Parameterizer) (mn : Z) (cause : error) :
  minParam rit = Some pmin ->
  maxParam rit = Some pmax ->
  ScanInt64 pmin (records w) = inr mn ->
  ScanInt64 pmax (records w) = inl cause ->
  exists e s',
    Transform r (mkState rit w) = (Err e, s') /\
    Error e = ("unable to scan " +:+ quoted "max" +:+ " param: ") +:+ Error cause /\
    self s' = rit /\
    records (world s') = records w.
Proof.
  intros Hmin Hmax Hn Hx.
  rewrite (Transform_max_scan_fails rit w r pmin pmax Hmin Hmax mn cause Hn Hx).
  eexists _, _. repeat split.
Qed.

Lemma Transform_max_scan_error_witness :
  exists e s',
    Transform scenario.buf
      (mkState (scenario.instance "id" 0 "1" "y" "true") scenario.world0)
    = (Err e, s') /\
    records (world s') = records scenario.world0.
Proof.
  destruct (Transform_max_scan_error
              (scenario.instance "id" 0 "1" "y" "true") scenario.world0
              scenario.buf (scenario.static "min" "1") (scenario.static "max" "y")
              1 (errorString "invalid syntax: y"))
    as [e [s' [Ht [_ [_ Hrec]]]]];
    [reflexivity | reflexivity | reflexivity | reflexivity |].
  exists e, s'. split; [exact Ht | exact Hrec].
Defined.

(** When the bounds resolve with min < max and the value of the bound
    column cannot be read, [Transform] returns that failure behind the
    prefix "unable to scan value: "; no value is drawn and the records are
    as before. *)
Theorem Transform_column_read_error
    (rit : RandomIntTransformer) (w : World) (r : loc)
    (pmin pmax : Parameterizer) (mn mx : Z) (rec : Record_) (cause : error) :
  minParam rit = Some pmin ->
  maxParam rit = Some pmax ->
  ScanInt64 pmin (records w) = inr mn ->
  ScanInt64 pmax (records w) = inr mx ->
  mn < mx ->
  records w !! r = Some rec ->
  GetRawColumnValueByIdx rec (columnIdx rit) = inl cause ->
  exists s',
    Transform r (mkState rit w)
      = (Err (wrapError "unable to scan value: " cause), s') /\
    self s' = rit /\
    records (world s') = records w.
Proof.
  intros Hmin Hmax Hn Hx Hlt Hr Hget.
  rewrite (Transform_bounds_resolved rit w r pmin pmax Hmin Hmax mn mx Hn Hx).
  cbv zeta.
  assert (Hb : (mn >=? mx) = false).
  { destruct (mn >=? mx) eqn:E; [apply Z.geb_le in E; lia | reflexivity]. }
  rewrite Hb, Hr, Hget. eexists. repeat split.
Qed.

Lemma Transform_column_read_error_witness :
  exists s',
    Transform scenario.buf
      (mkState (scenario.instance "total" 7 "1" "10" "true") scenario.world0)
    = (Err (wrapError "unable to scan value: "
              (errorString "column index is out of range: 7")), s') /\
    records (world s') = records scenario.world0.
Proof.
  destruct (Transform_column_read_error
              (scenario.instance "total" 7 "1" "10" "true") scenario.world0
              scenario.buf (scenario.static "min" "1") (scenario.static "max" "10")
              1 10 scenario.row (errorString "column index is out of range: 7"))
    as [s' [Ht [_ Hrec]]];
    [reflexivity | reflexivity | reflexivity | reflexivity | lia
    | reflexivity | reflexivity |].
  exists s'. split; [exact Ht | exact Hrec].
Defined.

(** [Transform] returns a record only when both bounds resolved with
    min < max and the bound column could be read; the record it returns is
    the one it was given. *)
Theorem Transform_Ok_only_on_valid_bounds
    (rit : RandomIntTransformer) (w : World) (r r' : loc) (s' : State) :
  Transform r (mkState rit w) = (Ok r', s') ->
  r' = r /\
  exists pmin pmax mn mx rec val,
    minParam rit = Some pmin /\
    maxParam rit = Some pmax /\
    ScanInt64 pmin (records w) = inr mn /\
    ScanInt64 pmax (records w) = inr mx /\
    mn < mx /\
    records w !! r = Some rec /\
    GetRawColumnValueByIdx rec (columnIdx rit) = inr val.
Proof.
  intros Ht. pose proof (Transform_cases rit w r) as Hc.
  destruct (minParam rit) as [pmin |] eqn:Hmin; [| congruence].
  cbv zeta in Hc.
  destruct (ScanInt64 pmin (records w)) as [e | mn] eqn:Hn; [congruence |].
  destruct (maxParam rit) as [pmax |] eqn:Hmax; [| congruence].
  destruct (ScanInt64 pmax (records w)) as [e | mx] eqn:Hx; [congruence |].
  destruct Hc as [[_ [e He]] | [[_ [_ Hp]] | [[_ (rec & e & _ & _ & He)]
    | [[Hlt (rec & val & Hr & Hget & _ & Hk)]
      | [Hlt (rec & val & Hr & Hget & _ & Hg)]]]]];
    try congruence.
  - rewrite Hk in Ht. injection Ht as <- _. split; [reflexivity |].
    exists pmin, pmax, mn, mx, rec, val. repeat split; assumption.
  - cbv zeta in Hg.
    destruct (SetColumnValueByIdx rec (columnIdx rit) _); [congruence |].
    rewrite Hg in Ht. injection Ht as <- _. split; [reflexivity |].
    exists pmin, pmax, mn, mx, rec, val. repeat split; assumption.
Qed.

Lemma Transform_Ok_only_on_valid_bounds_witness :
  exists pmin pmax mn mx rec val,
    minParam (scenario.instance "user_id" 1 "1" "10" "true") = Some pmin /\
    maxParam (scenario.instance "user_id" 1 "1" "10" "true") = Some pmax /\
    ScanInt64 pmin (records scenario.world0) = inr mn /\
    ScanInt64 pmax (records scenario.world0) = inr mx /\
    mn < mx /\
    records scenario.world0 !! scenario.buf = Some rec /\
    GetRawColumnValueByIdx rec 1 = inr val.
Proof.
  refine (proj2 (Transform_Ok_only_on_valid_bounds
            (scenario.instance "user_id" 1 "1" "10" "true") scenario.world0
            scenario.buf scenario.buf _ _)).
  reflexivity.
Defined.

(** A call of [Transform] changes the receiver only by drawing from its
    generator: when the receiver after the call differs from the receiver
    before, it is the receiver before with the generator one draw further
    and every other field as it was. It draws only after the bounds were
    accepted and a value to replace was read, and then either writes the
    value into the bound column and returns the record, or reports that the
    value could not be set. *)
Theorem Transform_draws_only_to_write
    (rit : RandomIntTransformer) (w : World) (r : loc)
    (o : outcome loc) (s' : State) :
  Transform r (mkState rit w) = (o, s') ->
  self s' <> rit ->
  exists pmin pmax mn mx,
    minParam rit = Some pmin /\ maxParam rit = Some pmax /\
    ScanInt64 pmin (records w) = inr mn /\
    ScanInt64 pmax (records w) = inr mx /\
    mn < mx /\
    self s' = mkRandomIntTransformer (columnName rit) (keepNull rit)
                (snd (RandomInt (rand rit) mn mx))
                (affectedColumns rit) (columnIdx rit) (columnParam rit)
                (maxParam rit) (minParam rit) (keepNullParam rit) /\
    ((o = Ok r /\
      exists rec',
        records (world s') !! r = Some rec' /\
        Row rec' !! Z.to_nat (columnIdx rit)
        = Some (NewRawValue (EncodeInt64 (fst (RandomInt (rand rit) mn mx))) false)) \/
     exists e, o = Err (wrapError "unable to set new value: " e)).
Proof.
  intros Ht Hself. pose proof (Transform_cases rit w r) as Hc.
  destruct (minParam rit) as [pmin |] eqn:Hmin.
  2: { rewrite Hc in Ht. injection Ht as _ <-. contradiction. }
  cbv zeta in Hc.
  destruct (ScanInt64 pmin (records w)) as [e | mn] eqn:Hn.
  { rewrite Hc in Ht. injection Ht as _ <-. contradiction. }
  destruct (maxParam rit) as [pmax |] eqn:Hmax.
  2: { rewrite Hc in Ht. injection Ht as _ <-. contradiction. }
  destruct (ScanInt64 pmax (records w)) as [e | mx] eqn:Hx.
  { rewrite Hc in Ht. injection Ht as _ <-. contradiction. }
  destruct Hc as [[_ [e He]] | [[_ [_ Hp]] | [[_ (rec & e & _ & _ & He)]
    | [[Hlt (rec & val & Hr & Hget & _ & Hk)]
      | [Hlt (rec & val & Hr & Hget & _ & Hg)]]]]].
  - rewrite He in Ht. injection Ht as _ <-. contradiction.
  - rewrite Hp in Ht. injection Ht as _ <-. contradiction.
  - rewrite He in Ht. injection Ht as _ <-. contradiction.
  - rewrite Hk in Ht. injection Ht as _ <-. contradiction.
  - exists pmin, pmax, mn, mx. cbv zeta in Hg.
    do 5 (split; [assumption || reflexivity |]).
    destruct (SetColumnValueByIdx rec (columnIdx rit) _) as [e | rec'] eqn:Hset.
    + rewrite Hg in Ht. injection Ht as <- <-.
      split; [simpl; rewrite ?Hmin, ?Hmax; reflexivity |].
      right. eexists; reflexivity.
    + rewrite Hg in Ht. injection Ht as <- <-.
      split; [simpl; rewrite ?Hmin, ?Hmax; reflexivity |].
      left. split; [reflexivity |].
      exists rec'. simpl. split; [apply lookup_insert_eq |].
      unfold SetColumnValueByIdx in Hset.
      apply GetRawColumnValueByIdx_inr in Hget as [Hin Hslot].
      rewrite Hin in Hset. injection Hset as <-. simpl.
      apply list_lookup_insert_eq. apply lookup_lt_Some in Hslot. exact Hslot.
Qed.

Lemma Transform_draws_only_to_write_witness :
  exists mn mx,
    self (snd (Transform scenario.buf
                 (mkState (scenario.instance "id" 0 "1" "10" "true")
                    scenario.world0)))
    = mkRandomIntTransformer "id" true
        (snd (RandomInt (rand (scenario.instance "id" 0 "1" "10" "true")) mn mx))
        {[ 0 := "id" ]} 0
        (Some (scenario.static "column" "id")) (Some (scenario.static "max" "10"))
        (Some (scenario.static "min" "1"))
        (Some (scenario.static "keep_null" "true")).
Proof.
  destruct (Transform_draws_only_to_write
              (scenario.instance "id" 0 "1" "10" "true") scenario.world0
              scenario.buf
              (fst (Transform scenario.buf
                      (mkState (scenario.instance "id" 0 "1" "10" "true")
                         scenario.world0)))
              (snd (Transform scenario.buf
                      (mkState (scenario.instance "id" 0 "1" "10" "true")
                         scenario.world0))))
    as (pmin & pmax & mn & mx & _ & _ & _ & _ & _ & Hself & _).
  - reflexivity.
  - intros H. apply (f_equal (fun t => drawn (rand t))) in H.
    vm_compute in H. discriminate H.
  - exists mn, mx. exact Hself.
Defined.

(** One call leaves every slot other than the bound column's, the length of
    every row and the set of records as they were. *)
Lemma after_frame c s r' j :
  (Z.of_nat j <> columnIdx (self s) ->
   slot (records (world (after c s))) r' j = slot (records (world s)) r' j) /\
  row_length (records (world (after c s))) r'
  = row_length (records (world s)) r'.
Proof.
  destruct c as [| r |]; [split; reflexivity | | split; reflexivity].
  destruct s as [rit w]. simpl.
  pose proof (Transform_cases rit w r) as Hc.
  destruct (minParam rit) as [pmin |]; [| rewrite Hc; split; reflexivity].
  cbv zeta in Hc.
  destruct (ScanInt64 pmin (records w)) as [e | mn];
    [rewrite Hc; split; reflexivity |].
  destruct (maxParam rit) as [pmax |]; [| rewrite Hc; split; reflexivity].
  destruct (ScanInt64 pmax (records w)) as [e | mx];
    [rewrite Hc; split; reflexivity |].
  destruct Hc as [[_ [e He]] | [[_ [_ Hp]] | [[_ (rec & e & _ & _ & He)]
    | [[Hlt (rec & val & Hr & Hget & _ & Hk)]
      | [Hlt (rec & val & Hr & Hget & _ & Hg)]]]]];
    try (rewrite He; split; reflexivity);
    try (rewrite Hp; split; reflexivity);
    try (rewrite Hk; split; reflexivity).
  cbv zeta in Hg.
  destruct (SetColumnValueByIdx rec (columnIdx rit) _) as [e | rec'] eqn:Hset;
    rewrite Hg; [split; reflexivity |].
  simpl. unfold SetColumnValueByIdx in Hset.
  apply GetRawColumnValueByIdx_inr in Hget as [Hin Hslot].
  rewrite Hin in Hset. injection Hset as <-.
  unfold slot, row_length.
  destruct (decide (r' = r)) as [-> | Hne].
  - rewrite lookup_insert_eq, Hr. simpl. split.
    + intros Hj. apply list_lookup_insert_ne.
      unfold in_range in Hin. apply andb_true_iff in Hin as [Hlo _].
      apply Z.leb_le in Hlo. lia.
    + rewrite length_insert. reflexivity.
  - rewrite lookup_insert_ne by congruence. split; reflexivity.
Qed.

Lemma run_calls_frame cs s r' j :
  Z.of_nat j <> columnIdx (self s) ->
  slot (records (world (run_calls cs s))) r' j = slot (records (world s)) r' j /\
  row_length (records (world (run_calls cs s))) r'
  = row_length (records (world s)) r'.
Proof.
  revert s. induction cs as [| c cs IH]; intros s Hj; [split; reflexivity |].
  unfold run_calls in *. simpl.
  destruct (after_fields c s) as (_ & _ & Hidx & _ & _).
  destruct (IH (after c s)) as [Hs Hl]; [rewrite Hidx; exact Hj |].
  destruct (after_frame c s r' j) as [Hs1 Hl1].
  rewrite Hs, Hl, Hs1, Hl1 by exact Hj. split; reflexivity.
Qed.

(** For every instance the constructor returns, no sequence of [Init],
    [Transform] and [Done] calls changes a slot whose index is not a key of
    [GetAffectedColumns], in any record; nor does it change the length of
    any row. *)
Theorem calls_change_only_affected_columns
    (rt : GoRuntime) (driver : Driver) (ps : gmap string Parameterizer)
    (w0 w0' : World) (rit : RandomIntTransformer)
    (cs : list call) (w : World) (r : loc) (j : nat) :
  NewRandomIntTransformer rt driver ps w0 = (Ok rit, w0') ->
  GetAffectedColumns rit !! Z.of_nat j = None ->
  slot (records (world (run_calls cs (mkState rit w)))) r j
  = slot (records w) r j /\
  row_length (records (world (run_calls cs (mkState rit w)))) r
  = row_length (records w) r.
Proof.
  intros Hnew Hj.
  apply (run_calls_frame cs (mkState rit w) r j). simpl.
  destruct (NewRandomIntTransformer_Ok_inv _ _ _ _ _ _ Hnew)
    as (pcol & pkn & name & idx & c & kn & _ & _ & _ & _ & _ & -> & _).
  simpl in *. intros Heq. unfold GetAffectedColumns in Hj. simpl in Hj.
  rewrite Heq, lookup_singleton_eq in Hj. discriminate Hj.
Qed.

Lemma calls_change_only_affected_columns_witness :
  slot (records (world (run_calls
          [CallInit; CallTransform scenario.buf; CallTransform scenario.buf;
           CallDone]
          (mkState (scenario.instance "id" 0 "1" "10" "true") scenario.world0))))
    scenario.buf 2
  = Some (NewRawValue "100.50" false).
Proof.
  destruct (calls_change_only_affected_columns
              scenario.runtime scenario.orders
              (scenario.parameters "id" "1" "10" "true") scenario.world0
              (mkWorld (records scenario.world0) ["column"; "keep_null"])
              (scenario.instance "id" 0 "1" "10" "true")
              [CallInit; CallTransform scenario.buf; CallTransform scenario.buf;
               CallDone]
              scenario.world0 scenario.buf 2)
    as [Hslot _]; [reflexivity | reflexivity |].
  rewrite Hslot. reflexivity.
Defined.

Lemma scans_of_app name l1 l2 :
  scans_of name (l1 ++ l2) = (scans_of name l1 + scans_of name l2)%nat.
Proof.
  unfold scans_of. rewrite filter_app, length_app. reflexivity.
Qed.

Lemma scans_of_singleton name n :
  scans_of name [n] = if decide (n = name) then 1%nat else 0%nat.
Proof.
  unfold scans_of. rewrite filter_cons. simpl.
  destruct (decide (n = name)); reflexivity.
Qed.

(** One call of [Transform] scans min once. *)
Lemma after_Transform_scans_min rit w r pmin pmax :
  minParam rit = Some pmin ->
  maxParam rit = Some pmax ->
  PName (GetDefinition pmax) <> PName (GetDefinition pmin) ->
  scans_of (PName (GetDefinition pmin))
    (scanned (world (snd (Transform r (mkState rit w)))))
  = S (scans_of (PName (GetDefinition pmin)) (scanned w)).
Proof.
  intros Hmin Hmax Hne.
  rewrite (Transform_scans rit w r pmin pmax Hmin Hmax).
  rewrite scans_of_app.
  change (PName (GetDefinition pmin) :: ?l)
    with ([PName (GetDefinition pmin)] ++ l).
  rewrite scans_of_app, scans_of_singleton.
  destruct (decide (PName (GetDefinition pmin) = PName (GetDefinition pmin)));
    [| congruence].
  destruct (ScanInt64 pmin (records w)).
  - change (scans_of (PName (GetDefinition pmin)) []) with 0%nat. lia.
  - rewrite scans_of_singleton.
    destruct (decide (PName (GetDefinition pmax) = PName (GetDefinition pmin)));
      [congruence | lia].
Qed.

(** Over any sequence of calls on an instance whose bounds are both bound,
    min is scanned once for every call of [Transform], and by no other
    call. *)
Theorem min_scanned_once_per_Transform
    (rit : RandomIntTransformer) (w : World) (cs : list call)
    (pmin pmax : Parameterizer) :
  minParam rit = Some pmin ->
  maxParam rit = Some pmax ->
  PName (GetDefinition pmax) <> PName (GetDefinition pmin) ->
  scans_of (PName (GetDefinition pmin))
    (scanned (world (run_calls cs (mkState rit w))))
  = (scans_of (PName (GetDefinition pmin)) (scanned w) + transforms cs)%nat.
Proof.
  intros Hmin Hmax Hne.
  assert (Hgen : forall s,
            minParam (self s) = Some pmin -> maxParam (self s) = Some pmax ->
            scans_of (PName (GetDefinition pmin))
              (scanned (world (run_calls cs s)))
            = (scans_of (PName (GetDefinition pmin)) (scanned (world s))
               + transforms cs)%nat).
  { induction cs as [| c cs IH]; intros s Hsmin Hsmax; [simpl; lia |].
    unfold run_calls in *. simpl.
    destruct (after_fields c s) as (_ & _ & _ & Hfmin & Hfmax).
    rewrite IH by (rewrite ?Hfmin, ?Hfmax; assumption).
    destruct c as [| r |]; simpl; [lia | | lia].
    destruct s as [rit2 w2]. simpl in Hsmin, Hsmax.
    rewrite (after_Transform_scans_min rit2 w2 r pmin pmax Hsmin Hsmax Hne).
    simpl. lia. }
  exact (Hgen (mkState rit w) Hmin Hmax).
Qed.

Lemma min_scanned_once_per_Transform_witness :
  scans_of "min"
    (scanned (world (run_calls
       [CallInit; CallTransform scenario.buf; CallTransform scenario.buf;
        CallTransform scenario.buf; CallDone]
       (mkState (scenario.instance "id" 0 "1" "10" "true") scenario.world0))))
  = 3%nat.
Proof.
  exact (min_scanned_once_per_Transform
           (scenario.instance "id" 0 "1" "10" "true") scenario.world0
           [CallInit; CallTransform scenario.buf; CallTransform scenario.buf;
            CallTransform scenario.buf; CallDone]
           (scenario.static "min" "1") (scenario.static "max" "10")
           eq_refl eq_refl ltac:(discriminate)).
Defined.

(** Keep-null protects only a value that is null when [Transform] is
    called: a call that writes a value leaves the column non-null, so a
    further call on the same record whose bounds resolve with min < max
    writes a new value within those bounds, whatever the keep-null flag. *)
Theorem Transform_again_overwrites
    (rit : RandomIntTransformer) (w : World) (r : loc)
    (pmin pmax : Parameterizer) (mn mx : Z) (rec : Record_) (val : RawValue) :
  minParam rit = Some pmin ->
  maxParam rit = Some pmax ->
  ScanInt64 pmin (records w) = inr mn ->
  ScanInt64 pmax (records w) = inr mx ->
  mn < mx ->
  records w !! r = Some rec ->
  GetRawColumnValueByIdx rec (columnIdx rit) = inr val ->
  IsNull val = false \/ keepNull rit = false ->
  exists s1 : State,
    Transform r (mkState rit w) = (Ok r, s1) /\
    forall mn2 mx2 : Z,
      ScanInt64 pmin (records (world s1)) = inr mn2 ->
      ScanInt64 pmax (records (world s1)) = inr mx2 ->
      mn2 < mx2 ->
      exists (v2 : Z) (s2 : State) (rec2 : Record_),
        Transform r s1 = (Ok r, s2) /\
        mn2 <= v2 <= mx2 /\
        records (world s2) !! r = Some rec2 /\
        Row rec2 !! Z.to_nat (columnIdx rit)
        = Some (NewRawValue (EncodeInt64 v2) false).
Proof.
  intros Hmin Hmax Hn Hx Hlt Hr Hget Hnull.
  destruct (Transform_generates_in_place rit w r pmin pmax mn mx rec val
              Hmin Hmax Hn Hx Hlt Hr Hget Hnull)
    as (v1 & s1 & rec1 & Ht & _ & Hrec1 & Hslot1 & _ & Hlen & _).
  exists s1. split; [exact Ht |].
  intros mn2 mx2 Hn2 Hx2 Hlt2.
  pose proof (after_fields (CallTransform r) (mkState rit w))
    as (_ & _ & Hidx & Hfmin & Hfmax).
  simpl in Hidx, Hfmin, Hfmax. rewrite Ht in Hidx, Hfmin, Hfmax.
  simpl in Hidx, Hfmin, Hfmax.
  rewrite Hmin in Hfmin. rewrite Hmax in Hfmax.
  destruct s1 as [rit1 w1]. simpl in *.
  assert (Hget1 : GetRawColumnValueByIdx rec1 (columnIdx rit1)
                  = inr (NewRawValue (EncodeInt64 v1) false)).
  { rewrite Hidx. unfold GetRawColumnValueByIdx. rewrite Hslot1.
    apply GetRawColumnValueByIdx_inr in Hget as [Hin _].
    unfold in_range in *. rewrite Hlen, Hin. reflexivity. }
  destruct (Transform_generates_in_place rit1 w1 r pmin pmax mn2 mx2 rec1 _
              Hfmin Hfmax Hn2 Hx2 Hlt2 Hrec1 Hget1 (or_introl eq_refl))
    as (v2 & s2 & rec2 & Ht2 & Hv2 & Hrec2 & Hslot2 & _).
  exists v2, s2, rec2. rewrite <- Hidx. repeat split; try assumption; apply Hv2.
Qed.

Lemma Transform_again_overwrites_witness :
  exists (s1 s2 : State) (v2 : Z),
    Transform scenario.buf
      (mkState (scenario.instance "user_id" 1 "1" "10" "false") scenario.world0)
    = (Ok scenario.buf, s1) /\
    Transform scenario.buf s1 = (Ok scenario.buf, s2) /\
    1 <= v2 <= 10.
Proof.
  destruct (Transform_again_overwrites
              (scenario.instance "user_id" 1 "1" "10" "false") scenario.world0
              scenario.buf (scenario.static "min" "1") (scenario.static "max" "10")
              1 10 scenario.row (NewRawValue "" true))
    as [s1 [Ht Hnext]];
    [reflexivity | reflexivity | reflexivity | reflexivity | lia
    | reflexivity | reflexivity | right; reflexivity |].
  destruct (Hnext 1 10) as (v2 & s2 & rec2 & Ht2 & Hv2 & _);
    [reflexivity | reflexivity | lia |].
  exists s1, s2, v2. split; [exact Ht |]. split; [exact Ht2 | exact Hv2].
Defined.
